(** * The git watcher of the managed codebase indexer

    A shallow embedding of [createGitWatcher] (git-watcher module of
    managed indexing) and of its three closures [handleGitChange],
    [handleBranchChange] and [handleCommit].

    The closures are [async] functions: they run synchronously up to an
    [await] on [getServerManifest] or [scanDirectory], are suspended there,
    and are resumed when the awaited promise settles.  File-watcher
    notifications and the polling timer may call [handleGitChange] again
    while an earlier call is suspended.  The embedding keeps that shape:

    - a closure body is a [Task], a tree of the statements it executes
      whose leaves are JavaScript completions and whose [Await..] nodes
      hold the rest of the body as a continuation;
    - [exec] runs a task up to its next [await] against the watcher's
      closure variables ([currentState], [isProcessing]) and the
      environment;
    - [step] delivers one event of the host (a notification, a poll tick,
      the settlement of a pending promise, a progress tick of the scan,
      disposal), and [run] a sequence of them.

    A closure that is resumed runs on to its next [await] on a promise of
    the host.  Awaiting the promise of an inner async call that has just
    completed yields to microtasks only, during which the host delivers
    nothing, so the return from [handleBranchChange] or [handleCommit]
    into [handleGitChange] is not a point of suspension.

    Console and logger output is not modelled.  The telemetry service
    and the logger are services of the host: calling them returns
    normally.  [onStateChange] is the caller's code and may throw:
    [exec], [step] and [run] are the watcher with a callback that returns,
    [exec_with], [step_with] and [run_with] the watcher with any
    callback.  The extension context, an opaque handle passed
    through to [scanDirectory], is left out. *)

From Stdlib Require Import String Ascii List Bool Arith Lia DecimalString.
Import ListNotations.
Open Scope string_scope.
Open Scope list_scope.

Set Implicit Arguments.

(** ** Data *)

(** [interface GitStateSnapshot]. *)
Record GitStateSnapshot := {
  branch : string;
  commit : string;
  isDetached : bool
}.

(** [ManagedIndexingConfig], the fields the watcher reads. *)
Record ManagedIndexingConfig := {
  workspacePath : string;
  organizationId : string;
  projectId : string;
  kilocodeToken : string
}.

(** What [getServerManifest] resolves to; the watcher reads three fields. *)
Record ServerManifest := {
  totalFiles : nat;
  totalChunks : nat;
  lastUpdated : nat
}.

(** The argument of the progress callback handed to [scanDirectory]. *)
Record ScanProgress := {
  progress_filesProcessed : nat;
  filesTotal : nat;
  progress_chunksIndexed : nat
}.

(** What [scanDirectory] resolves to. *)
Record ScanResult := {
  success : bool;
  filesProcessed : nat;
  chunksIndexed : nat;
  errors : list string
}.

Inductive Status := idle | scanning | watching | error.

(** [IndexerState], the argument of [onStateChange].  A field that an
    object literal of the source leaves out, or sets to [undefined], is
    [None]. *)
Record IndexerState := {
  status : Status;
  message : string;
  gitBranch : option string;
  lastSyncTime : option nat;
  st_totalFiles : option nat;
  st_totalChunks : option nat;
  manifest : option ServerManifest;
  st_error : option string
}.

(** The result of a call that may throw, or of a promise that may reject.
    An exception is kept as the text the source reads off it,
    [error instanceof Error ? error.message : String(error)]. *)
Inductive outcome (A : Type) :=
| Returned (a : A)
| Thrown (e : string).
Arguments Returned {A} a.
Arguments Thrown {A} e.

(** [let x; try { x = await f() } catch (error) { }]: [x] stays
    [undefined] when the promise rejects. *)
Definition value_or_undefined {A} (o : outcome A) : option A :=
  match o with
  | Returned a => Some a
  | Thrown _ => None
  end.

(** Template literals print numbers in decimal. *)
Definition show (n : nat) : string := NilEmpty.string_of_uint (Nat.to_uint n).

(** ** Tasks: bodies of the async closures *)

(** How a block of statements completes. *)
Inductive Completion :=
| Normal
| Return
| Throw (e : string).

Inductive Task :=
| Done (c : Completion)
| GetIsProcessing (k : bool -> Task)
| PutIsProcessing (b : bool) (k : Task)
| GetCurrentState (k : option GitStateSnapshot -> Task)
| PutCurrentState (v : option GitStateSnapshot) (k : Task)
| IsDetachedHead (workspace : string) (k : outcome bool -> Task)
| GetGitState (workspace : string)
    (k : outcome (option GitStateSnapshot) -> Task)
| DateNow (k : nat -> Task)
| OnStateChange (st : IndexerState) (k : outcome unit -> Task)
| CaptureEvent (err : string) (k : Task)
| AwaitGetServerManifest (org project branch token : string)
    (k : outcome ServerManifest -> Task)
| AwaitScanDirectory (config : ManagedIndexingConfig)
    (manifest : option ServerManifest)
    (onProgress : ScanProgress -> Task)
    (k : outcome ScanResult -> Task).

(** [t; u] *)
Fixpoint seq (t u : Task) : Task :=
  match t with
  | Done Normal => u
  | Done c => Done c
  | GetIsProcessing k => GetIsProcessing (fun b => seq (k b) u)
  | PutIsProcessing b k => PutIsProcessing b (seq k u)
  | GetCurrentState k => GetCurrentState (fun s => seq (k s) u)
  | PutCurrentState v k => PutCurrentState v (seq k u)
  | IsDetachedHead p k => IsDetachedHead p (fun o => seq (k o) u)
  | GetGitState p k => GetGitState p (fun o => seq (k o) u)
  | DateNow k => DateNow (fun n => seq (k n) u)
  | OnStateChange st k => OnStateChange st (fun o => seq (k o) u)
  | CaptureEvent e k => CaptureEvent e (seq k u)
  | AwaitGetServerManifest o p b t k =>
      AwaitGetServerManifest o p b t (fun r => seq (k r) u)
  | AwaitScanDirectory c m p k =>
      AwaitScanDirectory c m p (fun r => seq (k r) u)
  end.

(** [try { t } catch (error) { h error }] *)
Fixpoint try_catch (t : Task) (h : string -> Task) : Task :=
  match t with
  | Done (Throw e) => h e
  | Done c => Done c
  | GetIsProcessing k => GetIsProcessing (fun b => try_catch (k b) h)
  | PutIsProcessing b k => PutIsProcessing b (try_catch k h)
  | GetCurrentState k => GetCurrentState (fun s => try_catch (k s) h)
  | PutCurrentState v k => PutCurrentState v (try_catch k h)
  | IsDetachedHead p k => IsDetachedHead p (fun o => try_catch (k o) h)
  | GetGitState p k => GetGitState p (fun o => try_catch (k o) h)
  | DateNow k => DateNow (fun n => try_catch (k n) h)
  | OnStateChange st k => OnStateChange st (fun o => try_catch (k o) h)
  | CaptureEvent e k => CaptureEvent e (try_catch k h)
  | AwaitGetServerManifest o p b t k =>
      AwaitGetServerManifest o p b t (fun r => try_catch (k r) h)
  | AwaitScanDirectory c m p k =>
      AwaitScanDirectory c m p (fun r => try_catch (k r) h)
  end.

(** [try { t } finally { f }]: [f] runs however [t] completes, and the
    completion of [t] stands unless [f] completes abruptly itself. *)
Fixpoint try_finally (t f : Task) : Task :=
  match t with
  | Done c => seq f (Done c)
  | GetIsProcessing k => GetIsProcessing (fun b => try_finally (k b) f)
  | PutIsProcessing b k => PutIsProcessing b (try_finally k f)
  | GetCurrentState k => GetCurrentState (fun s => try_finally (k s) f)
  | PutCurrentState v k => PutCurrentState v (try_finally k f)
  | IsDetachedHead p k => IsDetachedHead p (fun o => try_finally (k o) f)
  | GetGitState p k => GetGitState p (fun o => try_finally (k o) f)
  | DateNow k => DateNow (fun n => try_finally (k n) f)
  | OnStateChange st k => OnStateChange st (fun o => try_finally (k o) f)
  | CaptureEvent e k => CaptureEvent e (try_finally k f)
  | AwaitGetServerManifest o p b t k =>
      AwaitGetServerManifest o p b t (fun r => try_finally (k r) f)
  | AwaitScanDirectory c m p k =>
      AwaitScanDirectory c m p (fun r => try_finally (k r) f)
  end.

(** A function body seen from its caller: [return] ends the body, and the
    call (awaited, for an async function) completes normally. *)
Fixpoint body (t : Task) : Task :=
  match t with
  | Done Return => Done Normal
  | Done c => Done c
  | GetIsProcessing k => GetIsProcessing (fun b => body (k b))
  | PutIsProcessing b k => PutIsProcessing b (body k)
  | GetCurrentState k => GetCurrentState (fun s => body (k s))
  | PutCurrentState v k => PutCurrentState v (body k)
  | IsDetachedHead p k => IsDetachedHead p (fun o => body (k o))
  | GetGitState p k => GetGitState p (fun o => body (k o))
  | DateNow k => DateNow (fun n => body (k n))
  | OnStateChange st k => OnStateChange st (fun o => body (k o))
  | CaptureEvent e k => CaptureEvent e (body k)
  | AwaitGetServerManifest o p b t k =>
      AwaitGetServerManifest o p b t (fun r => body (k r))
  | AwaitScanDirectory c m p k =>
      AwaitScanDirectory c m p (fun r => body (k r))
  end.

Declare Scope task_scope.
Delimit Scope task_scope with task.
Bind Scope task_scope with Task.

Notation "t ;; u" := (seq t u)
  (at level 61, right associativity) : task_scope.
Notation "x <- c ;; k" := (c (fun x => k))
  (at level 61, c at next level, right associativity) : task_scope.

Open Scope task_scope.

(** Statements. *)
Definition skip : Task := Done Normal.
Definition return_ : Task := Done Return.
Definition throw (e : string) : Task := Done (Throw e).
Definition setIsProcessing (b : bool) : Task := PutIsProcessing b skip.
Definition setCurrentState (v : option GitStateSnapshot) : Task :=
  PutCurrentState v skip.
Definition captureEvent (e : string) : Task := CaptureEvent e skip.

(** Calls whose exception is not caught on the spot: it becomes the
    completion of the statement. *)
Definition unwrap {A} (k : A -> Task) (o : outcome A) : Task :=
  match o with
  | Returned a => k a
  | Thrown e => throw e
  end.

(** [onStateChange?.(st)]: the callback is the caller's code, and what it
    throws is thrown by the statement. *)
Definition onStateChange (st : IndexerState) : Task :=
  OnStateChange st (unwrap (fun _ => skip)).

Definition isDetachedHead (workspace : string) (k : bool -> Task) : Task :=
  IsDetachedHead workspace (unwrap k).
Definition getGitState (workspace : string)
    (k : option GitStateSnapshot -> Task) : Task :=
  GetGitState workspace (unwrap k).
Definition scanDirectory (config : ManagedIndexingConfig)
    (manifest : option ServerManifest) (onProgress : ScanProgress -> Task)
    (k : ScanResult -> Task) : Task :=
  AwaitScanDirectory config manifest onProgress (unwrap k).
Definition getServerManifest (org project branch token : string)
    (k : outcome ServerManifest -> Task) : Task :=
  AwaitGetServerManifest org project branch token k.

(** The object literals passed to [onStateChange]. *)
Definition state (s : Status) (msg : string) (b : option string)
  : IndexerState :=
  {| status := s; message := msg; gitBranch := b; lastSyncTime := None;
     st_totalFiles := None; st_totalChunks := None; manifest := None;
     st_error := None |}.

Definition state_watching (msg branch : string) (now : nat)
    (result : ScanResult) (updatedManifest : option ServerManifest)
  : IndexerState :=
  {| status := watching; message := msg; gitBranch := Some branch;
     lastSyncTime := Some now;
     st_totalFiles := Some (filesProcessed result);
     st_totalChunks := Some (chunksIndexed result);
     manifest := updatedManifest;
     st_error := None |}.

Definition state_error (msg err branch : string) : IndexerState :=
  {| status := error; message := msg; gitBranch := Some branch;
     lastSyncTime := None; st_totalFiles := None; st_totalChunks := None;
     manifest := None; st_error := Some err |}.

Definition scan_failed (result : ScanResult) : string :=
  "Scan failed with " ++ show (length (errors result)) ++ " errors".

(** ** The closures of [createGitWatcher] *)

Section Watcher.

Variable config : ManagedIndexingConfig.

(** [handleBranchChange]: fetches the manifest of the new branch and
    re-indexes. *)
Definition handleBranchChange (newBranch : string) : Task :=
  body
    (try_catch
       (onStateChange
          (state scanning
             ("Branch changed to " ++ newBranch ++ ", fetching manifest...")
             (Some newBranch)) ;;
        fetched <- getServerManifest (organizationId config)
                     (projectId config) newBranch (kilocodeToken config) ;;
        let manifest := value_or_undefined fetched in
        onStateChange
          (state scanning ("Scanning branch " ++ newBranch ++ "...")
             (Some newBranch)) ;;
        result <- scanDirectory config manifest
                    (fun progress =>
                       onStateChange
                         (state scanning
                            ("Scanning: " ++
                             show (progress_filesProcessed progress) ++ "/" ++
                             show (filesTotal progress) ++ " files (" ++
                             show (progress_chunksIndexed progress) ++
                             " chunks)")
                            (Some newBranch))) ;;
        if success result then
          refetched <- getServerManifest (organizationId config)
                         (projectId config) newBranch
                         (kilocodeToken config) ;;
          let updatedManifest := value_or_undefined refetched in
          now <- DateNow ;;
          onStateChange
            (state_watching ("Branch " ++ newBranch ++ " indexed successfully")
               newBranch now result updatedManifest)
        else
          throw (scan_failed result))
       (fun error =>
          onStateChange
            (state_error ("Failed to index branch " ++ newBranch ++ ": " ++ error)
               error newBranch))).

(** [handleCommit]: re-indexes after a commit on the current branch. *)
Definition handleCommit (branch : string) : Task :=
  body
    (try_catch
       (onStateChange
          (state scanning "New commit detected, updating index..."
             (Some branch)) ;;
        fetched <- getServerManifest (organizationId config)
                     (projectId config) branch (kilocodeToken config) ;;
        let manifest := value_or_undefined fetched in
        result <- scanDirectory config manifest
                    (fun progress =>
                       onStateChange
                         (state scanning
                            ("Updating: " ++
                             show (progress_filesProcessed progress) ++ "/" ++
                             show (filesTotal progress) ++ " files (" ++
                             show (progress_chunksIndexed progress) ++
                             " chunks)")
                            (Some branch))) ;;
        if success result then
          refetched <- getServerManifest (organizationId config)
                         (projectId config) branch (kilocodeToken config) ;;
          let updatedManifest := value_or_undefined refetched in
          now <- DateNow ;;
          onStateChange
            (state_watching "Index updated after commit"
               branch now result updatedManifest)
        else
          throw (scan_failed result))
       (fun error =>
          onStateChange
            (state_error ("Failed to update index after commit: " ++ error)
               error branch))).

Definition detached_notice : IndexerState :=
  state idle "Detached HEAD state - indexing disabled" None.

(** [handleGitChange], the one handler behind every trigger. *)
Definition handleGitChange : Task :=
  body
    (processing <- GetIsProcessing ;;
     if processing then return_
     else
       try_finally
         (try_catch
            (setIsProcessing true ;;
             detached <- isDetachedHead (workspacePath config) ;;
             if detached then
               setCurrentState None ;;
               onStateChange detached_notice ;;
               return_
             else
               read <- getGitState (workspacePath config) ;;
               match read with
               | None => return_
               | Some newState =>
                   (known <- GetCurrentState ;;
                    match known with
                    | Some currentState =>
                        let branchChanged :=
                          negb (branch currentState =? branch newState)%string in
                        let commitChanged :=
                          negb (commit currentState =? commit newState)%string in
                        if negb branchChanged && negb commitChanged then
                          return_
                        else if branchChanged then
                          handleBranchChange (branch newState)
                        else if commitChanged then
                          handleCommit (branch newState)
                        else skip
                    | None =>
                        handleBranchChange (branch newState)
                    end) ;;
                   setCurrentState (Some newState)
               end)
            (fun error => captureEvent error))
         (setIsProcessing false)).

End Watcher.

(** ** The watcher at run time *)

(** What the watcher does to its surroundings, in order. *)
Inductive Obs :=
| CallIsDetachedHead (workspace : string)
| CallGetGitState (workspace : string)
| Notify (st : IndexerState)
| Telemetry (err : string)
| CallGetServerManifest (org project branch token : string)
| CallScanDirectory (config : ManagedIndexingConfig)
    (manifest : option ServerManifest)
| UnhandledRejection (e : string).

(** A closure suspended at an [await], with the rest of its body. *)
Inductive Suspended :=
| OnManifest (k : outcome ServerManifest -> Task)
| OnScan (onProgress : ScanProgress -> Task) (k : outcome ScanResult -> Task).

(** The sources of triggers, and the entries of the [disposables] array. *)
Inductive Channel := Head | RefsHeads | PackedRefs | Poll.

Inductive Disposable :=
| Subscription (ch : Channel)
| FsWatcher (ch : Channel)
| PollingTimer.

(** What the git utilities answer when asked now. *)
Record Repository := {
  answers_isDetachedHead : outcome bool;
  answers_getGitState : outcome (option GitStateSnapshot)
}.

(** The watcher and its surroundings at one instant.  Of [disposables],
    the entries not yet disposed. *)
Record World := {
  (* closure variables of createGitWatcher *)
  currentState : option GitStateSnapshot;
  isProcessing : bool;
  disposables : list Disposable;
  (* whether the optional onStateChange parameter was passed *)
  onStateChange_given : bool;
  (* promises not yet settled, oldest first *)
  pending : list Suspended;
  (* environment *)
  repository : Repository;
  clock : nat;
  (* history *)
  trace : list Obs
}.

Definition put_currentState (v : option GitStateSnapshot) (w : World) :=
  {| currentState := v; isProcessing := isProcessing w;
     disposables := disposables w;
     onStateChange_given := onStateChange_given w; pending := pending w;
     repository := repository w; clock := clock w; trace := trace w |}.

Definition put_isProcessing (b : bool) (w : World) :=
  {| currentState := currentState w; isProcessing := b;
     disposables := disposables w;
     onStateChange_given := onStateChange_given w; pending := pending w;
     repository := repository w; clock := clock w; trace := trace w |}.

Definition put_disposables (d : list Disposable) (w : World) :=
  {| currentState := currentState w; isProcessing := isProcessing w;
     disposables := d;
     onStateChange_given := onStateChange_given w; pending := pending w;
     repository := repository w; clock := clock w; trace := trace w |}.

Definition put_pending (p : list Suspended) (w : World) :=
  {| currentState := currentState w; isProcessing := isProcessing w;
     disposables := disposables w;
     onStateChange_given := onStateChange_given w; pending := p;
     repository := repository w; clock := clock w; trace := trace w |}.

Definition put_repository (r : Repository) (w : World) :=
  {| currentState := currentState w; isProcessing := isProcessing w;
     disposables := disposables w;
     onStateChange_given := onStateChange_given w; pending := pending w;
     repository := r; clock := clock w; trace := trace w |}.

Definition put_clock (n : nat) (w : World) :=
  {| currentState := currentState w; isProcessing := isProcessing w;
     disposables := disposables w;
     onStateChange_given := onStateChange_given w; pending := pending w;
     repository := repository w; clock := n; trace := trace w |}.

Definition note (o : Obs) (w : World) :=
  {| currentState := currentState w; isProcessing := isProcessing w;
     disposables := disposables w;
     onStateChange_given := onStateChange_given w; pending := pending w;
     repository := repository w; clock := clock w;
     trace := trace w ++ [o] |}.

Inductive Result :=
| Completed (c : Completion)
| Awaiting (s : Suspended).

(** Runs a task up to its end or its next [await], with a callback that
    returns; [exec_with] below is the same for any callback. *)
Fixpoint exec (t : Task) (w : World) : World * Result :=
  match t with
  | Done c => (w, Completed c)
  | GetIsProcessing k => exec (k (isProcessing w)) w
  | PutIsProcessing b k => exec k (put_isProcessing b w)
  | GetCurrentState k => exec (k (currentState w)) w
  | PutCurrentState v k => exec k (put_currentState v w)
  | IsDetachedHead p k =>
      exec (k (answers_isDetachedHead (repository w)))
           (note (CallIsDetachedHead p) w)
  | GetGitState p k =>
      exec (k (answers_getGitState (repository w)))
           (note (CallGetGitState p) w)
  | DateNow k => exec (k (clock w)) w
  | OnStateChange st k => exec (k (Returned tt)) (note (Notify st) w)
  | CaptureEvent e k => exec k (note (Telemetry e) w)
  | AwaitGetServerManifest o p b t k =>
      (note (CallGetServerManifest o p b t) w, Awaiting (OnManifest k))
  | AwaitScanDirectory c m p k =>
      (note (CallScanDirectory c m) w, Awaiting (OnScan p k))
  end.

(** Starts or resumes a closure that nobody awaits: if it suspends, it
    joins the pending promises; if it throws, the rejection is unhandled. *)
Definition spawn (t : Task) (w : World) : World :=
  let (w', r) := exec t w in
  match r with
  | Completed (Throw e) => note (UnhandledRejection e) w'
  | Completed _ => w'
  | Awaiting s => put_pending (pending w' ++ [s]) w'
  end.

(** The scan pipeline calls the progress callback, a function that is not
    async: what it throws is thrown into the pipeline, not at the
    watcher. *)
Definition report (t : Task) (w : World) : World := fst (exec t w).

(** How a pending promise settles. *)
Inductive Settlement :=
| Manifest (o : outcome ServerManifest)
| Scan (o : outcome ScanResult).

Definition resume (s : Suspended) (r : Settlement) : option Task :=
  match s, r with
  | OnManifest k, Manifest o => Some (k o)
  | OnScan _ k, Scan o => Some (k o)
  | _, _ => None
  end.

Fixpoint remove_nth {A} (i : nat) (l : list A) : list A :=
  match l, i with
  | [], _ => []
  | _ :: l', O => l'
  | a :: l', S i' => a :: remove_nth i' l'
  end.

(** Whether a trigger of the channel still reaches the handler. *)
Definition delivers (ch : Channel) (d : Disposable) : bool :=
  match ch, d with
  | Poll, PollingTimer => true
  | Head, Subscription Head => true
  | RefsHeads, Subscription RefsHeads => true
  | PackedRefs, Subscription PackedRefs => true
  | _, _ => false
  end.

Definition live (ch : Channel) (w : World) : bool :=
  existsb (delivers ch) (disposables w).

Inductive Event :=
| Fire (ch : Channel)
| Settle (i : nat) (r : Settlement)
| Progress (i : nat) (p : ScanProgress)
| RepositoryBecomes (r : Repository)
| ClockBecomes (n : nat)
| Dispose.

Section Run.

Variable config : ManagedIndexingConfig.

Definition step (w : World) (e : Event) : World :=
  match e with
  | Fire ch =>
      if live ch w then spawn (handleGitChange config) w else w
  | Settle i r =>
      match nth_error (pending w) i with
      | Some s =>
          match resume s r with
          | Some t => spawn t (put_pending (remove_nth i (pending w)) w)
          | None => w
          end
      | None => w
      end
  | Progress i p =>
      match nth_error (pending w) i with
      | Some (OnScan onProgress _) => report (onProgress p) w
      | _ => w
      end
  | RepositoryBecomes r => put_repository r w
  | ClockBecomes n => put_clock n w
  | Dispose => put_disposables [] w
  end.

Definition run (w : World) (es : list Event) : World := fold_left step es w.

(** What the host lets [createGitWatcher] set up: whether
    [createFileSystemWatcher] returns or throws on each path, and whether
    the packed-refs file exists. *)
Record Host := {
  head_watcher : outcome unit;
  refs_watcher : outcome unit;
  packed_refs_exists : bool;
  packed_refs_watcher : outcome unit
}.

Definition watching_of (ch : Channel) (o : outcome unit) : list Disposable :=
  match o with
  | Returned _ => [Subscription ch; FsWatcher ch]
  | Thrown _ => []
  end.

(** The setup block.  A failure on the HEAD path abandons the block and is
    reported to telemetry; a failure on the refs or on packed-refs is only
    logged. *)
Definition watchers (h : Host) : list Disposable * list Obs :=
  match head_watcher h with
  | Returned _ =>
      (watching_of Head (head_watcher h) ++
       watching_of RefsHeads (refs_watcher h) ++
       (if packed_refs_exists h
        then watching_of PackedRefs (packed_refs_watcher h) else []),
       [])
  | Thrown e => ([], [Telemetry e])
  end.

(** [createGitWatcher]: reads the initial state, sets up the file
    watchers, then the polling timer. *)
Definition createGitWatcher (given : bool) (h : Host) (r : Repository)
    (now : nat) : World :=
  let asked := CallGetGitState (workspacePath config) in
  let start v said :=
    {| currentState := v; isProcessing := false;
       disposables := fst (watchers h) ++ [PollingTimer];
       onStateChange_given := given; pending := [];
       repository := r; clock := now;
       trace := asked :: said ++ snd (watchers h) |} in
  match answers_getGitState r with
  | Returned (Some gitState) => start (Some gitState) []
  | Returned None => start None [Notify detached_notice]
  | Thrown _ => start None []
  end.

End Run.

(** ** The watcher with any callback *)

(** What the caller's callback does with a status: it returns, or it
    throws. *)
Definition Callback := IndexerState -> outcome unit.

(** Runs a task up to its end or its next [await].  Where the task calls
    [onStateChange?.(st)], the callback, if one was passed, decides how
    the statement completes. *)
Fixpoint exec_with (cb : Callback) (t : Task) (w : World) : World * Result :=
  match t with
  | Done c => (w, Completed c)
  | GetIsProcessing k => exec_with cb (k (isProcessing w)) w
  | PutIsProcessing b k => exec_with cb k (put_isProcessing b w)
  | GetCurrentState k => exec_with cb (k (currentState w)) w
  | PutCurrentState v k => exec_with cb k (put_currentState v w)
  | IsDetachedHead p k =>
      exec_with cb (k (answers_isDetachedHead (repository w)))
        (note (CallIsDetachedHead p) w)
  | GetGitState p k =>
      exec_with cb (k (answers_getGitState (repository w)))
        (note (CallGetGitState p) w)
  | DateNow k => exec_with cb (k (clock w)) w
  | OnStateChange st k =>
      exec_with cb
        (k (if onStateChange_given w then cb st else Returned tt))
        (note (Notify st) w)
  | CaptureEvent e k => exec_with cb k (note (Telemetry e) w)
  | AwaitGetServerManifest o p b t k =>
      (note (CallGetServerManifest o p b t) w, Awaiting (OnManifest k))
  | AwaitScanDirectory c m p k =>
      (note (CallScanDirectory c m) w, Awaiting (OnScan p k))
  end.

Definition spawn_with (cb : Callback) (t : Task) (w : World) : World :=
  let (w', r) := exec_with cb t w in
  match r with
  | Completed (Throw e) => note (UnhandledRejection e) w'
  | Completed _ => w'
  | Awaiting s => put_pending (pending w' ++ [s]) w'
  end.

(** A progress tick calls the callback from inside the scan: what the
    callback throws there is thrown into the scan, not into the watcher.
    (What the scan makes of it is a settlement like any other.) *)
Definition report_with (cb : Callback) (t : Task) (w : World) : World :=
  fst (exec_with cb t w).

Section RunWith.

Variable cb : Callback.
Variable config : ManagedIndexingConfig.

Definition step_with (w : World) (e : Event) : World :=
  match e with
  | Fire ch =>
      if live ch w then spawn_with cb (handleGitChange config) w else w
  | Settle i r =>
      match nth_error (pending w) i with
      | Some s =>
          match resume s r with
          | Some t => spawn_with cb t (put_pending (remove_nth i (pending w)) w)
          | None => w
          end
      | None => w
      end
  | Progress i p =>
      match nth_error (pending w) i with
      | Some (OnScan onProgress _) => report_with cb (onProgress p) w
      | _ => w
      end
  | RepositoryBecomes r => put_repository r w
  | ClockBecomes n => put_clock n w
  | Dispose => put_disposables [] w
  end.

Definition run_with (w : World) (es : list Event) : World :=
  fold_left step_with es w.

End RunWith.

(** The callback of the world, if one was passed, returns whatever the
    status. *)
Definition returns (cb : Callback) (w : World) : Prop :=
  onStateChange_given w = true -> forall st, cb st = Returned tt.

(** ** Reading a history *)

(** The world after the observations [l]. *)
Definition add_trace (l : list Obs) (w : World) : World :=
  {| currentState := currentState w; isProcessing := isProcessing w;
     disposables := disposables w;
     onStateChange_given := onStateChange_given w; pending := pending w;
     repository := repository w; clock := clock w;
     trace := trace w ++ l |}.

(** The statuses passed to [onStateChange?.(..)], in order. *)
Fixpoint notified (tr : list Obs) : list IndexerState :=
  match tr with
  | [] => []
  | Notify st :: tr' => st :: notified tr'
  | _ :: tr' => notified tr'
  end.

(** The statuses the owner of the watcher receives: none without a
    callback. *)
Definition delivered (w : World) : list IndexerState :=
  if onStateChange_given w then notified (trace w) else [].

(** How often the scan pipeline was invoked. *)
Fixpoint scans (tr : list Obs) : nat :=
  match tr with
  | [] => 0
  | CallScanDirectory _ _ :: tr' => S (scans tr')
  | _ :: tr' => scans tr'
  end.

(** How often the git utilities were asked. *)
Fixpoint git_reads (tr : list Obs) : nat :=
  match tr with
  | [] => 0
  | CallIsDetachedHead _ :: tr' => S (git_reads tr')
  | CallGetGitState _ :: tr' => S (git_reads tr')
  | _ :: tr' => git_reads tr'
  end.

(** How often the handler of a trigger caught an exception. *)
Fixpoint telemetries (tr : list Obs) : nat :=
  match tr with
  | [] => 0
  | Telemetry _ :: tr' => S (telemetries tr')
  | _ :: tr' => telemetries tr'
  end.

(** How often a handler ended in an exception nobody caught. *)
Fixpoint rejections (tr : list Obs) : nat :=
  match tr with
  | [] => 0
  | UnhandledRejection _ :: tr' => S (rejections tr')
  | _ :: tr' => rejections tr'
  end.

(** No handler is running or suspended. *)
Definition Quiet (w : World) : Prop :=
  isProcessing w = false /\ pending w = [].

(** The repository is on a branch, and [getGitState] answers [newState]. *)
Definition sees (w : World) (newState : GitStateSnapshot) : Prop :=
  answers_isDetachedHead (repository w) = Returned false /\
  answers_getGitState (repository w) = Returned (Some newState).

(** One reconciliation from trigger to end, when nothing else happens in
    between: the trigger, the manifest, the progress ticks of the scan, the
    scan result and the manifest fetched again. *)
Definition reconciliation (ch : Channel) (m1 : outcome ServerManifest)
    (ticks : list ScanProgress) (sc : outcome ScanResult)
    (m2 : outcome ServerManifest) : list Event :=
  Fire ch :: Settle 0 (Manifest m1) ::
  map (Progress 0) ticks ++ [Settle 0 (Scan sc); Settle 0 (Manifest m2)].

(** Events that settle nothing: triggers, and changes of the environment. *)
Definition passive (e : Event) : bool :=
  match e with
  | Fire _ | RepositoryBecomes _ | ClockBecomes _ => true
  | _ => false
  end.

(** The statuses of the two reconciliations, by name: progress, failure
    and the last status. *)
Definition branch_progress (b : string) (progress : ScanProgress)
  : IndexerState :=
  state scanning
    ("Scanning: " ++ show (progress_filesProcessed progress) ++ "/" ++
     show (filesTotal progress) ++ " files (" ++
     show (progress_chunksIndexed progress) ++ " chunks)")
    (Some b).

Definition commit_progress (b : string) (progress : ScanProgress)
  : IndexerState :=
  state scanning
    ("Updating: " ++ show (progress_filesProcessed progress) ++ "/" ++
     show (filesTotal progress) ++ " files (" ++
     show (progress_chunksIndexed progress) ++ " chunks)")
    (Some b).

Definition branch_failure (b e : string) : IndexerState :=
  state_error ("Failed to index branch " ++ b ++ ": " ++ e) e b.

Definition commit_failure (b e : string) : IndexerState :=
  state_error ("Failed to update index after commit: " ++ e) e b.

(** The scan returned, and with [success: true]. *)
Definition succeeded (sc : outcome ScanResult) : bool :=
  match sc with
  | Returned result => success result
  | Thrown _ => false
  end.

Definition branch_final (b : string) (sc : outcome ScanResult)
    (m2 : outcome ServerManifest) (now : nat) : IndexerState :=
  match sc with
  | Thrown e => branch_failure b e
  | Returned result =>
      if success result then
        state_watching ("Branch " ++ b ++ " indexed successfully")
          b now result (value_or_undefined m2)
      else branch_failure b (scan_failed result)
  end.

Definition commit_final (b : string) (sc : outcome ScanResult)
    (m2 : outcome ServerManifest) (now : nat) : IndexerState :=
  match sc with
  | Thrown e => commit_failure b e
  | Returned result =>
      if success result then
        state_watching "Index updated after commit"
          b now result (value_or_undefined m2)
      else commit_failure b (scan_failed result)
  end.

(** Which of the two paths a change takes. *)
Definition takes_commit_path (known : option GitStateSnapshot)
    (newState : GitStateSnapshot) : bool :=
  match known with
  | Some k => (branch k =? branch newState)%string
  | None => false
  end.

(** The last status of a reconciliation. *)
Definition path_final (known : option GitStateSnapshot)
    (newState : GitStateSnapshot) (sc : outcome ScanResult)
    (m2 : outcome ServerManifest) (now : nat) : IndexerState :=
  if takes_commit_path known newState
  then commit_final (branch newState) sc m2 now
  else branch_final (branch newState) sc m2 now.

(** The status the watcher is in: the last one it passed to
    [onStateChange?.(..)]. *)
Definition last_notified (tr : list Obs) : option IndexerState :=
  last (map Some (notified tr)) None.

(** [getGitState] answers a snapshot that differs from the last-known one,
    or there is no last-known one. *)
Definition changed (w : World) (newState : GitStateSnapshot) : Prop :=
  forall known, currentState w = Some known ->
    branch known <> branch newState \/ commit known <> commit newState.

(** The part of a world that belongs to the watcher, as opposed to the
    environment. *)
Definition watcher_of (w : World) :=
  (currentState w, isProcessing w, disposables w, onStateChange_given w,
   pending w, trace w).

(** A progress callback that only reports. *)
Inductive Reports : Task -> Prop :=
| reports_end : Reports (Done Normal)
| reports_more st k : Reports (k (Returned tt)) -> Reports (OnStateChange st k).

(** [Closing n t]: [t] is a remainder of [handleGitChange] that, along
    every path, awaits at most [n] more promises, reports on the way,
    never reads the flag, and ends by clearing it and completing
    normally. *)
Inductive Closing : nat -> Task -> Prop :=
| closing_clear n : Closing n (PutIsProcessing false (Done Normal))
| closing_put n v k : Closing n k -> Closing n (PutCurrentState v k)
| closing_notify n st k :
    Closing n (k (Returned tt)) -> Closing n (OnStateChange st k)
| closing_capture n e k : Closing n k -> Closing n (CaptureEvent e k)
| closing_now n k : (forall t, Closing n (k t)) -> Closing n (DateNow k)
| closing_manifest n o p b t k :
    (forall r, Closing n (k r)) ->
    Closing (S n) (AwaitGetServerManifest o p b t k)
| closing_scan n c m p k :
    (forall t, Reports (p t)) -> (forall r, Closing n (k r)) ->
    Closing (S n) (AwaitScanDirectory c m p k).

(** A suspended handler whose remainder is closing, however the promise
    it awaits settles. *)
Definition closing_suspended (n : nat) (s : Suspended) : Prop :=
  match s with
  | OnManifest k => forall r, Closing n (k r)
  | OnScan p k => (forall t, Reports (p t)) /\ forall r, Closing n (k r)
  end.

(** Either no handler is in flight and the flag is clear, or exactly one
    is, suspended with a closing remainder, and the flag is set.  No
    rejection went unhandled. *)
Definition Inv (w : World) : Prop :=
  rejections (trace w) = 0 /\
  (Quiet w \/
   (isProcessing w = true /\
    exists s, pending w = [s] /\ closing_suspended 2 s)).

(** The settlement a suspended handler waits for. *)
Definition answer (s : Suspended) (m : outcome ServerManifest)
    (sc : outcome ScanResult) : Settlement :=
  match s with
  | OnManifest _ => Manifest m
  | OnScan _ _ => Scan sc
  end.

(** Notifications of the file watchers and ticks of the polling timer. *)
Definition is_trigger (e : Event) : bool :=
  match e with
  | Fire _ => true
  | _ => false
  end.

(** A status without its human-readable text. *)
Definition without_message (st : IndexerState) : IndexerState :=
  {| status := status st; message := ""; gitBranch := gitBranch st;
     lastSyncTime := lastSyncTime st; st_totalFiles := st_totalFiles st;
     st_totalChunks := st_totalChunks st; manifest := manifest st;
     st_error := st_error st |}.

(** An observation without the text of its status. *)
Definition erase (o : Obs) : Obs :=
  match o with
  | Notify st => Notify (without_message st)
  | _ => o
  end.

(** The status [handleBranchChange] reports between the manifest and the
    scan. *)
Definition announcement (b : string) : Obs :=
  Notify (state scanning ("Scanning branch " ++ b ++ "...") (Some b)).

(** Events addressed to a pending promise. *)
Definition is_settlement (e : Event) : bool :=
  match e with
  | Settle _ _ | Progress _ _ => true
  | _ => false
  end.

(** How often the manifest service was asked. *)
Fixpoint fetches (tr : list Obs) : nat :=
  match tr with
  | [] => 0
  | CallGetServerManifest _ _ _ _ :: tr' => S (fetches tr')
  | _ :: tr' => fetches tr'
  end.

(** One reconciliation during which the environment moves: the repository
    changes right after the trigger, and the clock reads [finished] when
    the last promise settles. *)
Definition reconciliation_amid (ch : Channel) (moved : Repository)
    (m1 : outcome ServerManifest) (ticks : list ScanProgress)
    (sc : outcome ScanResult) (finished : nat)
    (m2 : outcome ServerManifest) : list Event :=
  Fire ch :: RepositoryBecomes moved :: Settle 0 (Manifest m1) ::
  map (Progress 0) ticks ++
  [Settle 0 (Scan sc); ClockBecomes finished; Settle 0 (Manifest m2)].

(** ** Worlds to try the claims on *)

Module Example.

(** A workspace, a host on which every watcher can be set up, and what
    the repository, the manifest service and the scan may answer. *)
Definition config : ManagedIndexingConfig :=
  {| workspacePath := "/repo"; organizationId := "org";
     projectId := "project"; kilocodeToken := "token" |}.

Definition host : Host :=
  {| head_watcher := Returned tt; refs_watcher := Returned tt;
     packed_refs_exists := false; packed_refs_watcher := Returned tt |}.

Definition on (b c : string) : GitStateSnapshot :=
  {| branch := b; commit := c; isDetached := false |}.

Definition repo (s : GitStateSnapshot) : Repository :=
  {| answers_isDetachedHead := Returned false;
     answers_getGitState := Returned (Some s) |}.

Definition detached : Repository :=
  {| answers_isDetachedHead := Returned true;
     answers_getGitState := Returned None |}.

Definition served : ServerManifest :=
  {| totalFiles := 40; totalChunks := 900; lastUpdated := 1700 |}.

Definition indexed : ScanResult :=
  {| success := true; filesProcessed := 42; chunksIndexed := 1000;
     errors := [] |}.

Definition failed : ScanResult :=
  {| success := false; filesProcessed := 3; chunksIndexed := 7;
     errors := ["EACCES"; "timeout"] |}.

Definition tick : ScanProgress :=
  {| progress_filesProcessed := 1; filesTotal := 42;
     progress_chunksIndexed := 20 |}.

(** A watcher created on main at aaa111, with a callback. *)
Definition created : World :=
  createGitWatcher config true host (repo (on "main" "aaa111")) 5.

(** The same after a commit on main, before any trigger. *)
Definition committed : World :=
  run config created [RepositoryBecomes (repo (on "main" "bbb222"))].

(** The same after a switch to feature-x instead. *)
Definition switched : World :=
  run config created [RepositoryBecomes (repo (on "feature-x" "bbb222"))].

(** A watcher created on feature-x at aaa111, after a commit there. *)
Definition committed_on_feature : World :=
  run config
    (createGitWatcher config true host (repo (on "feature-x" "aaa111")) 5)
    [RepositoryBecomes (repo (on "feature-x" "bbb222"))].

End Example.

(** ** The rollback pull-request script *)

(** [createRollbackPR], the script that opens a pull request bringing main
    in line with a rollback release.  The GitHub client, base64, JSON, the
    clock and [calculateRollbackVersion], which lives in another file, are
    the platform the script runs on.  What the script writes to the error
    stream is not modelled; strings are sequences of UTF-8 bytes. *)
Module Rollback.

(** [process.env], the four variables the script reads. *)
Record Env := {
  GITHUB_TOKEN : option string;
  GITHUB_REPOSITORY : option string;
  SOURCE_TAG : option string;
  GITHUB_SHA : option string
}.

(** [!v] for a variable of the environment: unset, or empty. *)
Definition missing (v : option string) : bool :=
  match v with
  | None => true
  | Some EmptyString => true
  | Some _ => false
  end.

Definition value (v : option string) : string :=
  match v with
  | Some s => s
  | None => ""
  end.

(** [s.split(sep)] for a separator of one character. *)
Fixpoint js_split (sep : ascii) (s : string) : list string :=
  match s with
  | EmptyString => [EmptyString]
  | String c s' =>
      if Ascii.eqb c sep then EmptyString :: js_split sep s'
      else match js_split sep s' with
           | piece :: pieces => String c piece :: pieces
           | [] => [String c EmptyString]
           end
  end.

(** [pieces.join(sep)] *)
Fixpoint js_join (sep : ascii) (pieces : list string) : string :=
  match pieces with
  | [] => EmptyString
  | [piece] => piece
  | piece :: pieces' => piece ++ String sep (js_join sep pieces')
  end.

Definition nl : string := String (ascii_of_nat 10) EmptyString.

(** U+1F504, the arrows of the changelog entry. *)
Definition arrows : string :=
  String (ascii_of_nat 240) (String (ascii_of_nat 159)
    (String (ascii_of_nat 148) (String (ascii_of_nat 132) EmptyString))).

(** What [repos.getContent] answers for a file, and [pulls.create]. *)
Record File := {
  content : string;
  sha : string
}.

Record PullRequest := {
  number : nat;
  html_url : string
}.

(** The calls of the script to the GitHub API.  [repo] is [undefined]
    when GITHUB_REPOSITORY has no slash. *)
Inductive Request :=
| GetContent (owner : string) (repo : option string) (path ref : string)
| CreateRef (owner : string) (repo : option string) (ref sha : string)
| CreateOrUpdateFileContents (owner : string) (repo : option string)
    (path message content branch sha : string)
| PullsCreate (owner : string) (repo : option string)
    (title head base body : string).

(** An authenticated client: what each call answers. *)
Record Octokit := {
  repos_getContent :
    string -> option string -> string -> string -> outcome File;
  git_createRef :
    string -> option string -> string -> string -> outcome unit;
  repos_createOrUpdateFileContents :
    string -> option string -> string -> string -> string -> string ->
    string -> outcome unit;
  pulls_create :
    string -> option string -> string -> string -> string -> string ->
    outcome PullRequest
}.

Record Platform (Json : Type) := {
  new_Octokit : string -> Octokit;
  (* Buffer.from(s, "base64").toString() and
     Buffer.from(s).toString("base64") *)
  base64_decode : string -> string;
  base64_encode : string -> string;
  JSON_parse : string -> outcome Json;
  (* JSON.stringify(x, null, "\t") *)
  JSON_stringify : Json -> string;
  (* x === null; x.version, undefined if there is none, and
     x.version = v, for x that is not null *)
  is_null : Json -> bool;
  get_version : Json -> option string;
  set_version : Json -> string -> Json;
  calculateRollbackVersion : option string -> outcome string;
  (* new Date().toISOString() *)
  toISOString : string
}.

(** How the script ended: its calls, its standard output, and the code it
    exited with if it called [process.exit]. *)
Record Run := {
  requests : list Request;
  stdout : list string;
  exit_code : option nat
}.

(** The [try] block: the calls made so far, and either the pull request
    or the exception that ended the block. *)
Definition Script := list Request -> list Request * outcome PullRequest.

Definition attempt {A} (o : outcome A) (k : A -> Script) : Script :=
  fun log =>
    match o with
    | Returned a => k a log
    | Thrown e => (log, Thrown e)
    end.

Definition asking {A} (q : Request) (o : outcome A) (k : A -> Script)
  : Script :=
  fun log => attempt o k (log ++ [q]).

Definition finish (pr : PullRequest) : Script :=
  fun log => (log, Returned pr).

Section Script.

Variable Json : Type.
Variable P : Platform Json.

Definition getContent (octokit : Octokit) (owner : string)
    (repo : option string) (path ref : string) (k : File -> Script)
  : Script :=
  asking (GetContent owner repo path ref)
    (repos_getContent octokit owner repo path ref) k.

Definition createRef (octokit : Octokit) (owner : string)
    (repo : option string) (ref sha : string) (k : unit -> Script)
  : Script :=
  asking (CreateRef owner repo ref sha)
    (git_createRef octokit owner repo ref sha) k.

Definition createOrUpdateFileContents (octokit : Octokit) (owner : string)
    (repo : option string) (path message content branch sha : string)
    (k : unit -> Script) : Script :=
  asking (CreateOrUpdateFileContents owner repo path message content branch sha)
    (repos_createOrUpdateFileContents octokit owner repo path message content
       branch sha) k.

Definition pulls_create_ (octokit : Octokit) (owner : string)
    (repo : option string) (title head base body : string)
    (k : PullRequest -> Script) : Script :=
  asking (PullsCreate owner repo title head base body)
    (pulls_create octokit owner repo title head base body) k.

Definition rollbackEntry (rollbackVersion today sourceTag : string) : string :=
  ("## [v" ++ rollbackVersion ++ "] - " ++ today ++ nl ++ nl ++
   arrows ++ " **Rollback Release**: Restored stable functionality from `" ++
   sourceTag ++ "`" ++ nl ++ nl)%string.

Definition pr_body (sourceTag rollbackVersion : string) : string :=
  ("## Rollback Version Update" ++ nl ++ nl ++
   "This PR updates the main branch to reflect the rollback version that was just published." ++
   nl ++ nl ++
   "**Source:** `" ++ sourceTag ++ "`  " ++ nl ++
   "**Rollback Version:** `" ++ rollbackVersion ++ "`" ++ nl ++ nl ++
   "### Changes" ++ nl ++
   "- Updated `src/package.json` version to `" ++ rollbackVersion ++ "`" ++ nl ++
   "- Added rollback entry to `CHANGELOG.md`" ++ nl ++ nl ++
   "**Note:** This rollback was published to the marketplace. Merge this PR to keep main in sync with published versions.")%string.

(** [x.version] and [x.version = v]: a TypeError when [x] is null. *)
Definition version_of (x : Json) : outcome (option string) :=
  if is_null P x
  then Thrown "Cannot read properties of null (reading 'version')"
  else Returned (get_version P x).

Definition with_version (x : Json) (v : string) : outcome Json :=
  if is_null P x
  then Thrown "Cannot set properties of null (setting 'version')"
  else Returned (set_version P x v).

(** The [try] block of [createRollbackPR]. *)
Definition attempt_rollback (octokit : Octokit) (owner : string)
    (repo : option string) (sourceTag currentSha : string) : Script :=
  mainPackageFile <- getContent octokit owner repo "src/package.json" "main" ;;
  parsed <- attempt (JSON_parse P (base64_decode P (content mainPackageFile))) ;;
  mainVersion <- attempt (version_of parsed) ;;
  rollbackVersion <- attempt (calculateRollbackVersion P mainVersion) ;;
  let branchName := ("rollback-to-" ++ rollbackVersion)%string in
  _ <- createRef octokit owner repo ("refs/heads/" ++ branchName)%string
         currentSha ;;
  mainChangelog <- getContent octokit owner repo "CHANGELOG.md" "main" ;;
  packageJson <- attempt
                   (JSON_parse P (base64_decode P (content mainPackageFile))) ;;
  packageJson <- attempt (with_version packageJson rollbackVersion) ;;
  _ <- createOrUpdateFileContents octokit owner repo "src/package.json"
         ("chore: update version to " ++ rollbackVersion)%string
         (base64_encode P (JSON_stringify P packageJson ++ nl)%string)
         branchName (sha mainPackageFile) ;;
  let changelogContent := base64_decode P (content mainChangelog) in
  let today := hd EmptyString (js_split "T" (toISOString P)) in
  let updatedChangelog :=
    (rollbackEntry rollbackVersion today sourceTag ++ changelogContent)%string in
  _ <- createOrUpdateFileContents octokit owner repo "CHANGELOG.md"
         "docs: add rollback entry to changelog"
         (base64_encode P updatedChangelog)
         branchName (sha mainChangelog) ;;
  pr <- pulls_create_ octokit owner repo
          ("chore: rollback version to " ++ rollbackVersion)%string
          branchName "main" (pr_body sourceTag rollbackVersion) ;;
  finish pr.

(** [createRollbackPR] *)
Definition createRollbackPR (env : Env) : Run :=
  let token := GITHUB_TOKEN env in
  let repository := GITHUB_REPOSITORY env in
  let sourceTag := SOURCE_TAG env in
  let currentSha := GITHUB_SHA env in
  if missing token || missing repository || missing sourceTag
     || missing currentSha
  then {| requests := []; stdout := []; exit_code := Some 1 |}
  else
    let pieces := js_split "/" (value repository) in
    let owner := hd EmptyString pieces in
    let repo := nth_error pieces 1 in
    let octokit := new_Octokit P (value token) in
    match attempt_rollback octokit owner repo (value sourceTag)
            (value currentSha) [] with
    | (log, Returned pr) =>
        {| requests := log;
           stdout := [("pr_number=" ++ show (number pr))%string;
                      ("pr_url=" ++ html_url pr)%string];
           exit_code := None |}
    | (log, Thrown _) =>
        {| requests := log; stdout := []; exit_code := Some 1 |}
    end.

End Script.

(** Calls that change the repository. *)
Definition is_write (q : Request) : bool :=
  match q with
  | GetContent _ _ _ _ => false
  | _ => true
  end.

(** A request as the script makes them for rollback version [v]: reads
    are from main, the branch is created at [sha] under the name of the
    version, files are written to that branch, and the pull request goes
    from it to main; all of it in the repository [owner]/[repo]. *)
Definition aimed (owner : string) (repo : option string) (v sha : string)
    (q : Request) : Prop :=
  match q with
  | GetContent o r _ ref => o = owner /\ r = repo /\ ref = "main"
  | CreateRef o r ref s =>
      o = owner /\ r = repo /\
      ref = ("refs/heads/rollback-to-" ++ v)%string /\ s = sha
  | CreateOrUpdateFileContents o r _ _ _ b _ =>
      o = owner /\ r = repo /\ b = ("rollback-to-" ++ v)%string
  | PullsCreate o r _ head base _ =>
      o = owner /\ r = repo /\
      head = ("rollback-to-" ++ v)%string /\ base = "main"
  end.

(** [const [owner, repo] = repository.split("/")] *)
Definition owner_of (env : Env) : string :=
  hd EmptyString (js_split "/" (value (GITHUB_REPOSITORY env))).

Definition repo_of (env : Env) : option string :=
  nth_error (js_split "/" (value (GITHUB_REPOSITORY env))) 1.

(** The text has no occurrence of the character. *)
Fixpoint free_of (sep : ascii) (s : string) : bool :=
  match s with
  | EmptyString => true
  | String c s' => negb (Ascii.eqb c sep) && free_of sep s'
  end.

(** The date of an ISO timestamp. *)
Definition date_of (iso : string) : string :=
  hd EmptyString (js_split "T" iso).

End Rollback.

(** ** More worlds, and environments of the script *)

Module Sample.

(** A repository whose metadata cannot be read. *)
Definition broken : Repository :=
  {| answers_isDetachedHead := Thrown "ENOENT";
     answers_getGitState := Thrown "ENOENT" |}.

(** A repository that is not detached and has no readable state. *)
Definition unreadable : Repository :=
  {| answers_isDetachedHead := Returned false;
     answers_getGitState := Returned None |}.

(** A host on which no file watcher can be created. *)
Definition deaf : Host :=
  {| head_watcher := Thrown "ENOSPC"; refs_watcher := Returned tt;
     packed_refs_exists := true; packed_refs_watcher := Returned tt |}.

(** A platform whose JSON values are version strings, whose base64 is
    the identity, and whose GitHub accepts everything. *)
Definition github : Rollback.Octokit :=
  {| Rollback.repos_getContent := fun _ _ path _ =>
       Returned {| Rollback.content := path; Rollback.sha := "abc" |};
     Rollback.git_createRef := fun _ _ _ _ => Returned tt;
     Rollback.repos_createOrUpdateFileContents :=
       fun _ _ _ _ _ _ _ => Returned tt;
     Rollback.pulls_create := fun _ _ _ _ _ _ =>
       Returned {| Rollback.number := 7;
                   Rollback.html_url := "https://github.com/o/r/pull/7" |} |}.

Definition platform : Rollback.Platform string :=
  {| Rollback.new_Octokit := fun _ => github;
     Rollback.base64_decode := fun s => s;
     Rollback.base64_encode := fun s => s;
     Rollback.JSON_parse := fun s => Returned s;
     Rollback.JSON_stringify := fun j => j;
     Rollback.is_null := fun _ => false;
     Rollback.get_version := fun j => Some j;
     Rollback.set_version := fun _ v => v;
     Rollback.calculateRollbackVersion := fun _ => Returned "4.100.1";
     Rollback.toISOString := "2026-01-02T03:04:05.000Z" |}.

(** The same where package.json holds [null]. *)
Definition hollow : Rollback.Platform string :=
  {| Rollback.new_Octokit := fun _ => github;
     Rollback.base64_decode := fun s => s;
     Rollback.base64_encode := fun s => s;
     Rollback.JSON_parse := fun s => Returned s;
     Rollback.JSON_stringify := fun j => j;
     Rollback.is_null := fun _ => true;
     Rollback.get_version := fun j => Some j;
     Rollback.set_version := fun _ v => v;
     Rollback.calculateRollbackVersion := fun _ => Returned "4.100.1";
     Rollback.toISOString := "2026-01-02T03:04:05.000Z" |}.

Definition env : Rollback.Env :=
  {| Rollback.GITHUB_TOKEN := Some "ghp";
     Rollback.GITHUB_REPOSITORY := Some "Kilo-Org/kilocode";
     Rollback.SOURCE_TAG := Some "v4.99.0";
     Rollback.GITHUB_SHA := Some "0123abc" |}.

(** A callback that cannot show an error. *)
Definition fussy : Callback :=
  fun st =>
    match status st with
    | error => Thrown "cannot render"
    | _ => Returned tt
    end.

(** A callback that takes everything. *)
Definition easy : Callback := fun _ => Returned tt.

End Sample.

(** ** Properties *)

Section Properties.

Variable config : ManagedIndexingConfig.

(** What a handled trigger asks the git utilities. *)
Definition asks : list Obs :=
  [CallIsDetachedHead (workspacePath config);
   CallGetGitState (workspacePath config)].

(** The call that fetches the manifest of branch [b]. *)
Definition fetch (b : string) : Obs :=
  CallGetServerManifest (organizationId config) (projectId config) b
    (kilocodeToken config).

(** The observations of a reconciliation, written out: from the scan
    result on, and as a whole. *)
Definition branch_ending (b : string) (sc : outcome ScanResult)
    (m2 : outcome ServerManifest) (now : nat) : list Obs :=
  (if succeeded sc then [fetch b] else []) ++
  [Notify (branch_final b sc m2 now)].

Definition commit_ending (b : string) (sc : outcome ScanResult)
    (m2 : outcome ServerManifest) (now : nat) : list Obs :=
  (if succeeded sc then [fetch b] else []) ++
  [Notify (commit_final b sc m2 now)].

Definition branch_trace (b : string) (m1 : outcome ServerManifest)
    (ticks : list ScanProgress) (sc : outcome ScanResult)
    (m2 : outcome ServerManifest) (now : nat) : list Obs :=
  [Notify (state scanning ("Branch changed to " ++ b ++ ", fetching manifest...")
             (Some b));
   fetch b;
   Notify (state scanning ("Scanning branch " ++ b ++ "...") (Some b));
   CallScanDirectory config (value_or_undefined m1)] ++
  map (fun t => Notify (branch_progress b t)) ticks ++
  branch_ending b sc m2 now.

Definition commit_trace (b : string) (m1 : outcome ServerManifest)
    (ticks : list ScanProgress) (sc : outcome ScanResult)
    (m2 : outcome ServerManifest) (now : nat) : list Obs :=
  [Notify (state scanning "New commit detected, updating index..." (Some b));
   fetch b;
   CallScanDirectory config (value_or_undefined m1)] ++
  map (fun t => Notify (commit_progress b t)) ticks ++
  commit_ending b sc m2 now.

(** The observations of the reconciliation a change leads to. *)
Definition path_trace (known : option GitStateSnapshot)
    (newState : GitStateSnapshot) (m1 : outcome ServerManifest)
    (ticks : list ScanProgress) (sc : outcome ScanResult)
    (m2 : outcome ServerManifest) (now : nat) : list Obs :=
  if takes_commit_path known newState
  then commit_trace (branch newState) m1 ticks sc m2 now
  else branch_trace (branch newState) m1 ticks sc m2 now.

(** Settles the oldest pending promise [n] times, with manifest outcomes
    [ms] and scan outcome [sc], or fewer times if nothing is pending. *)
Fixpoint settle_all (n : nat) (ms : nat -> outcome ServerManifest)
    (sc : outcome ScanResult) (w : World) : World :=
  match n with
  | 0 => w
  | S n' =>
      match pending w with
      | [] => w
      | s :: _ =>
          settle_all n' ms sc (step config w (Settle 0 (answer s (ms n') sc)))
      end
  end.

Local Arguments String.append : simpl never.
Local Arguments String.eqb : simpl never.
Local Arguments show : simpl never.

Lemma notified_app (a b : list Obs) :
  notified (a ++ b) = notified a ++ notified b.
Proof.
  induction a as [|o a IH]; simpl; [reflexivity|].
  destruct o; simpl; rewrite ?IH; reflexivity.
Qed.

Lemma scans_app (a b : list Obs) : scans (a ++ b) = scans a + scans b.
Proof.
  induction a as [|o a IH]; simpl; [reflexivity|].
  destruct o; simpl; rewrite ?IH; reflexivity.
Qed.

Lemma git_reads_app (a b : list Obs) :
  git_reads (a ++ b) = git_reads a + git_reads b.
Proof.
  induction a as [|o a IH]; simpl; [reflexivity|].
  destruct o; simpl; rewrite ?IH; reflexivity.
Qed.

Lemma telemetries_app (a b : list Obs) :
  telemetries (a ++ b) = telemetries a + telemetries b.
Proof.
  induction a as [|o a IH]; simpl; [reflexivity|].
  destruct o; simpl; rewrite ?IH; reflexivity.
Qed.

Lemma rejections_app (a b : list Obs) :
  rejections (a ++ b) = rejections a + rejections b.
Proof.
  induction a as [|o a IH]; simpl; [reflexivity|].
  destruct o; simpl; rewrite ?IH; reflexivity.
Qed.

Lemma add_trace_nil (w : World) : add_trace [] w = w.
Proof. destruct w; unfold add_trace; simpl; rewrite app_nil_r; reflexivity. Qed.

Lemma add_trace_add_trace (a b : list Obs) (w : World) :
  add_trace b (add_trace a w) = add_trace (a ++ b) w.
Proof. unfold add_trace; simpl; rewrite app_assoc; reflexivity. Qed.

Lemma run_app (w : World) (es fs : list Event) :
  run config w (es ++ fs) = run config (run config w es) fs.
Proof. apply fold_left_app. Qed.

Lemma run_cons (w : World) (e : Event) (es : list Event) :
  run config w (e :: es) = run config (step config w e) es.
Proof. reflexivity. Qed.

Lemma step_fire (w : World) (ch : Channel) :
  existsb (delivers ch) (disposables w) = true ->
  step config w (Fire ch) = spawn (handleGitChange config) w.
Proof. intros H. unfold step, live. rewrite H. reflexivity. Qed.

(** A trigger that finds the flag set changes nothing. *)
Lemma fire_dropped (w : World) (ch : Channel) :
  isProcessing w = true -> step config w (Fire ch) = w.
Proof.
  intros Hp. unfold step. destruct (live ch w); [|reflexivity].
  unfold spawn, handleGitChange. cbn. rewrite Hp. reflexivity.
Qed.

(** The progress ticks of a scan whose callback only reports. *)
Lemma progress_ticks (f : ScanProgress -> IndexerState)
    (p : ScanProgress -> Task) (k : outcome ScanResult -> Task)
    (ticks : list ScanProgress) :
  (forall t, p t = onStateChange (f t)) ->
  forall w, pending w = [OnScan p k] ->
  run config w (map (Progress 0) ticks)
  = add_trace (map (fun t => Notify (f t)) ticks) w.
Proof.
  intros Hp. induction ticks as [|t ticks IH]; intros w Hw; simpl.
  - symmetry. apply add_trace_nil.
  - rewrite Hw. simpl. unfold report. rewrite Hp. simpl.
    fold (run config (note (Notify (f t)) w) (map (Progress 0) ticks)).
    rewrite IH by exact Hw.
    unfold add_trace, note. simpl. rewrite <- app_assoc. reflexivity.
Qed.

Local Arguments run : simpl never.
Local Arguments step : simpl never.

(** Brings a world built by the setters back to a record. *)
Ltac flat :=
  cbv [put_pending put_currentState put_isProcessing put_disposables
       put_repository put_clock note add_trace
       currentState isProcessing disposables onStateChange_given pending
       repository clock trace].

(** Delivers the next event of a run. *)
Ltac deliver := rewrite run_cons; unfold step at 1; cbn; flat.

(** A reconciliation along the branch-change path, from start to end. *)
Lemma reconcile_branch (w : World) (newState : GitStateSnapshot)
    (ch : Channel) (m1 : outcome ServerManifest) (ticks : list ScanProgress)
    (sc : outcome ScanResult) (m2 : outcome ServerManifest) :
  Quiet w -> live ch w = true -> sees w newState ->
  (forall known, currentState w = Some known ->
                 branch known <> branch newState) ->
  run config w (reconciliation ch m1 ticks sc m2)
  = put_currentState (Some newState)
      (add_trace (asks ++ branch_trace (branch newState) m1 ticks sc m2 (clock w))
         w).
Proof.
  intros [Hp Hq] Hl [Hd Hg] Hb.
  unfold reconciliation.
  destruct w as [cs ip ds gv pd [ad ag] ck tr].
  unfold live in Hl. simpl in Hp, Hq, Hd, Hg, Hb, Hl. subst.
  rewrite run_cons, step_fire by exact Hl.
  assert (Hne : forall known, cs = Some known ->
                  (branch known =? branch newState)%string = false)
    by (intros k E; apply String.eqb_neq, Hb, E).
  unfold spawn at 1, handleGitChange. cbn.
  destruct cs as [known|]; cbn; [rewrite (Hne known eq_refl); cbn|].
  all: flat; deliver.
  all: rewrite run_app.
  all: erewrite progress_ticks with (f := branch_progress (branch newState));
    [|intros; reflexivity|reflexivity].
  all: flat; deliver.
  all: destruct sc as [result|e]; cbn; [destruct (success result) eqn:Hs; cbn|].
  all: flat; deliver.
  all: unfold run, asks, branch_trace, branch_ending, branch_final,
         branch_failure, succeeded, fetch;
       cbn [fold_left]; rewrite ?Hs.
  all: f_equal; repeat (rewrite <- app_assoc; cbn [app]); reflexivity.
Qed.

(** A reconciliation along the commit path, from start to end. *)
Lemma reconcile_commit (w : World) (known newState : GitStateSnapshot)
    (ch : Channel) (m1 : outcome ServerManifest) (ticks : list ScanProgress)
    (sc : outcome ScanResult) (m2 : outcome ServerManifest) :
  Quiet w -> live ch w = true -> sees w newState ->
  currentState w = Some known ->
  branch known = branch newState -> commit known <> commit newState ->
  run config w (reconciliation ch m1 ticks sc m2)
  = put_currentState (Some newState)
      (add_trace (asks ++ commit_trace (branch newState) m1 ticks sc m2 (clock w))
         w).
Proof.
  intros [Hp Hq] Hl [Hd Hg] Hk Hb Hc.
  unfold reconciliation.
  destruct w as [cs ip ds gv pd [ad ag] ck tr].
  unfold live in Hl. simpl in Hp, Hq, Hd, Hg, Hk, Hl. subst.
  apply String.eqb_neq in Hc.
  rewrite run_cons, step_fire by exact Hl.
  unfold spawn at 1, handleGitChange. cbn.
  rewrite Hb, String.eqb_refl, Hc. cbn.
  flat; deliver.
  rewrite run_app.
  erewrite progress_ticks with (f := commit_progress (branch newState));
    [|intros; reflexivity|reflexivity].
  flat; deliver.
  destruct sc as [result|e]; cbn; [destruct (success result) eqn:Hs; cbn|].
  all: flat; deliver.
  all: unfold run, asks, commit_trace, commit_ending, commit_final,
         commit_failure, succeeded, fetch;
       cbn [fold_left]; rewrite ?Hs.
  all: f_equal; repeat (rewrite <- app_assoc; cbn [app]); reflexivity.
Qed.

(** A trigger that finds branch and commit as they were. *)
Lemma fire_unchanged (w : World) (known newState : GitStateSnapshot)
    (ch : Channel) :
  isProcessing w = false -> live ch w = true -> sees w newState ->
  currentState w = Some known ->
  branch known = branch newState -> commit known = commit newState ->
  step config w (Fire ch) = add_trace asks w.
Proof.
  intros Hp Hl [Hd Hg] Hk Hb Hc.
  destruct w as [cs ip ds gv pd [ad ag] ck tr].
  unfold live in Hl. simpl in Hp, Hd, Hg, Hk, Hl. subst.
  rewrite step_fire by exact Hl.
  unfold spawn, handleGitChange. cbn.
  rewrite Hb, Hc, !String.eqb_refl. cbn.
  flat. unfold asks. rewrite <- ?app_assoc. reflexivity.
Qed.

(** A trigger that finds the repository in detached HEAD state. *)
Lemma fire_detached (w : World) (ch : Channel) :
  isProcessing w = false -> live ch w = true ->
  answers_isDetachedHead (repository w) = Returned true ->
  step config w (Fire ch)
  = put_currentState None
      (add_trace [CallIsDetachedHead (workspacePath config);
                  Notify detached_notice] w).
Proof.
  intros Hp Hl Hd.
  destruct w as [cs ip ds gv pd [ad ag] ck tr].
  unfold live in Hl. simpl in Hp, Hd, Hl. subst.
  rewrite step_fire by exact Hl.
  unfold spawn, handleGitChange. cbn.
  flat. rewrite <- ?app_assoc. reflexivity.
Qed.

(** A trigger whose [getGitState] answers [null]. *)
Lemma fire_unreadable (w : World) (ch : Channel) :
  isProcessing w = false -> live ch w = true ->
  answers_isDetachedHead (repository w) = Returned false ->
  answers_getGitState (repository w) = Returned None ->
  step config w (Fire ch) = add_trace asks w.
Proof.
  intros Hp Hl Hd Hg.
  destruct w as [cs ip ds gv pd [ad ag] ck tr].
  unfold live in Hl. simpl in Hp, Hd, Hg, Hl. subst.
  rewrite step_fire by exact Hl.
  unfold spawn, handleGitChange. cbn.
  flat. unfold asks. rewrite <- ?app_assoc. reflexivity.
Qed.

(** A trigger on which [isDetachedHead] throws. *)
Lemma fire_throws_early (w : World) (ch : Channel) (e : string) :
  isProcessing w = false -> live ch w = true ->
  answers_isDetachedHead (repository w) = Thrown e ->
  step config w (Fire ch)
  = add_trace [CallIsDetachedHead (workspacePath config); Telemetry e] w.
Proof.
  intros Hp Hl Hd.
  destruct w as [cs ip ds gv pd [ad ag] ck tr].
  unfold live in Hl. simpl in Hp, Hd, Hl. subst.
  rewrite step_fire by exact Hl.
  unfold spawn, handleGitChange. cbn.
  flat. rewrite <- ?app_assoc. reflexivity.
Qed.

(** A trigger on which [getGitState] throws. *)
Lemma fire_throws_late (w : World) (ch : Channel) (e : string) :
  isProcessing w = false -> live ch w = true ->
  answers_isDetachedHead (repository w) = Returned false ->
  answers_getGitState (repository w) = Thrown e ->
  step config w (Fire ch) = add_trace (asks ++ [Telemetry e]) w.
Proof.
  intros Hp Hl Hd Hg.
  destruct w as [cs ip ds gv pd [ad ag] ck tr].
  unfold live in Hl. simpl in Hp, Hd, Hg, Hl. subst.
  rewrite step_fire by exact Hl.
  unfold spawn, handleGitChange. cbn.
  flat. unfold asks. rewrite <- ?app_assoc. reflexivity.
Qed.

(** While the flag is set, triggers and changes of the environment leave
    the watcher as it is. *)
Lemma passive_run (es : list Event) :
  forallb passive es = true ->
  forall w, isProcessing w = true ->
  watcher_of (run config w es) = watcher_of w.
Proof.
  induction es as [|e es IH]; intros Hes w Hp; [reflexivity|].
  simpl in Hes. apply andb_prop in Hes. destruct Hes as [He Hes].
  rewrite run_cons.
  destruct e; try discriminate He.
  - rewrite fire_dropped by exact Hp. apply IH; assumption.
  - rewrite IH by assumption. reflexivity.
  - rewrite IH by assumption. reflexivity.
Qed.

(** A trigger that finds a change starts a reconciliation: the handler is
    suspended on the manifest with the flag set, and when the manifest
    settles, either way, it invokes the scan once and is suspended again. *)
Lemma fire_changed (w : World) (newState : GitStateSnapshot) (ch : Channel) :
  Quiet w -> live ch w = true -> sees w newState -> changed w newState ->
  exists k st,
    step config w (Fire ch)
    = put_pending [OnManifest k]
        (put_isProcessing true
           (add_trace (asks ++ [Notify st; fetch (branch newState)]) w)) /\
    forall m1 w', exists sts p k2,
      exec (k m1) w'
      = (add_trace (map Notify sts ++
                    [CallScanDirectory config (value_or_undefined m1)]) w',
         Awaiting (OnScan p k2)).
Proof.
  intros [Hp Hq] Hl [Hd Hg] Hc.
  destruct w as [cs ip ds gv pd [ad ag] ck tr].
  unfold live in Hl. unfold changed in Hc. simpl in Hp, Hq, Hd, Hg, Hc, Hl. subst.
  rewrite step_fire by exact Hl.
  unfold spawn, handleGitChange. cbn.
  destruct cs as [known|]; cbn.
  - destruct (String.eqb_spec (branch known) (branch newState)) as [Eb|Nb]; cbn.
    + destruct (String.eqb_spec (commit known) (commit newState)) as [Ec|Nc]; cbn.
      * destruct (Hc known eq_refl); contradiction.
      * do 2 eexists. split.
        -- flat. unfold asks, fetch. rewrite <- ?app_assoc. reflexivity.
        -- intros m1 w'. exists []. do 2 eexists. cbn. reflexivity.
    + do 2 eexists. split.
      * flat. unfold asks, fetch. rewrite <- ?app_assoc. reflexivity.
      * intros m1 w'. eexists [_]. do 2 eexists. cbn.
        flat. rewrite <- ?app_assoc. reflexivity.
  - do 2 eexists. split.
    + flat. unfold asks, fetch. rewrite <- ?app_assoc. reflexivity.
    + intros m1 w'. eexists [_]. do 2 eexists. cbn.
      flat. rewrite <- ?app_assoc. reflexivity.
Qed.

Lemma scans_notify (sts : list IndexerState) : scans (map Notify sts) = 0.
Proof. induction sts; simpl; auto. Qed.

Lemma git_reads_notify (sts : list IndexerState) :
  git_reads (map Notify sts) = 0.
Proof. induction sts; simpl; auto. Qed.

(** What stands once the manifest of a started reconciliation has settled
    and only triggers and changes of the environment follow. *)
Lemma scanning_once (w : World) (newState : GitStateSnapshot)
    (c1 : Channel) (m1 : outcome ServerManifest) (es1 es2 : list Event) :
  Quiet w -> live c1 w = true -> sees w newState -> changed w newState ->
  forallb passive es1 = true -> forallb passive es2 = true ->
  let before := run config w (Fire c1 :: es1) in
  let during :=
    run config w (Fire c1 :: es1 ++ Settle 0 (Manifest m1) :: es2) in
  isProcessing before = true /\
  isProcessing during = true /\
  scans (trace before) = scans (trace w) /\
  scans (trace during) = S (scans (trace w)) /\
  git_reads (trace during) = git_reads (trace w) + 2.
Proof.
  intros Hq Hl Hs Hc He1 He2 before during.
  destruct (fire_changed c1 Hq Hl Hs Hc) as (k & st & E1 & Hk).
  assert (P1 : isProcessing (step config w (Fire c1)) = true)
    by (rewrite E1; reflexivity).
  pose proof (passive_run es1 He1 _ P1) as Wa.
  fold (run config (step config w (Fire c1)) es1) in Wa.
  assert (Eb : before = run config (step config w (Fire c1)) es1)
    by reflexivity.
  rewrite <- Eb in Wa.
  unfold watcher_of in Wa. rewrite E1 in Wa. simpl in Wa.
  injection Wa as Wcs Wip Wds Wgv Wpd Wtr.
  assert (Ed : during
               = run config (step config before (Settle 0 (Manifest m1))) es2).
  { unfold during. rewrite run_cons, run_app, run_cons. reflexivity. }
  destruct (Hk m1 (put_pending [] before)) as (sts & p & k2 & E2).
  assert (E3 : step config before (Settle 0 (Manifest m1))
               = put_pending [OnScan p k2]
                   (add_trace (map Notify sts ++
                      [CallScanDirectory config (value_or_undefined m1)])
                      before)).
  { unfold step. rewrite Wpd. simpl. unfold spawn. rewrite E2. reflexivity. }
  assert (P3 : isProcessing (step config before (Settle 0 (Manifest m1)))
               = true) by (rewrite E3; exact Wip).
  pose proof (passive_run es2 He2 _ P3) as Wb.
  rewrite <- Ed in Wb. unfold watcher_of in Wb. rewrite E3 in Wb.
  simpl in Wb. injection Wb as Vcs Vip Vds Vgv Vpd Vtr.
  repeat split.
  - exact Wip.
  - rewrite Vip. exact Wip.
  - rewrite Wtr, scans_app. unfold asks. simpl. lia.
  - rewrite Vtr, Wtr, !scans_app, scans_notify. unfold asks. simpl. lia.
  - rewrite Vtr, Wtr, !git_reads_app, git_reads_notify. unfold asks.
    simpl. lia.
Qed.

(** *** The shape of a suspended handler *)

Lemma closing_S (n : nat) (t : Task) : Closing n t -> Closing (S n) t.
Proof. induction 1; constructor; auto. Qed.

Lemma closing_le (n m : nat) (t : Task) : n <= m -> Closing n t -> Closing m t.
Proof. induction 1; auto using closing_S. Qed.

Lemma exec_reports (t : Task) :
  Reports t ->
  forall w, exists sts,
    exec t w = (add_trace (map Notify sts) w, Completed Normal).
Proof.
  induction 1 as [|st k _ IH]; intros w.
  - exists []. simpl. rewrite add_trace_nil. reflexivity.
  - destruct (IH (note (Notify st) w)) as [sts E]. exists (st :: sts).
    simpl. rewrite E. unfold add_trace, note. simpl.
    rewrite <- app_assoc. reflexivity.
Qed.

(** What running a closing remainder does to the watcher. *)
Lemma exec_closing (n : nat) (t : Task) :
  Closing n t ->
  forall w,
    disposables (fst (exec t w)) = disposables w /\
    pending (fst (exec t w)) = pending w /\
    rejections (trace (fst (exec t w))) = rejections (trace w) /\
    match snd (exec t w) with
    | Completed c => c = Normal /\ isProcessing (fst (exec t w)) = false
    | Awaiting s =>
        isProcessing (fst (exec t w)) = isProcessing w /\
        exists m, n = S m /\ closing_suspended m s
    end.
Proof.
  induction 1 as [n|n v k _ IH|n st k _ IH|n e k _ IH|n k _ IH
                  |n o p b t k Hk _|n c m p k Hp Hk _]; intros w; simpl.
  - auto.
  - destruct (IH (put_currentState v w)) as (A & B & C & D). auto.
  - destruct (IH (note (Notify st) w)) as (A & B & C & D).
    simpl in C. rewrite rejections_app in C. simpl in C.
    rewrite Nat.add_0_r in C. auto.
  - destruct (IH (note (Telemetry e) w)) as (A & B & C & D).
    simpl in C. rewrite rejections_app in C. simpl in C.
    rewrite Nat.add_0_r in C. auto.
  - apply IH.
  - rewrite rejections_app. simpl. rewrite Nat.add_0_r.
    repeat split; auto. exists n. split; [reflexivity|exact Hk].
  - rewrite rejections_app. simpl. rewrite Nat.add_0_r.
    repeat split; auto. exists n. split; [reflexivity|]. split; assumption.
Qed.

Ltac closing :=
  cbn;
  repeat first
    [ apply closing_clear
    | apply closing_put
    | apply closing_notify
    | apply closing_capture
    | apply closing_now; intro
    | apply closing_manifest; intro
    | apply closing_scan;
      [ intro; repeat constructor
      | intros [result|e]; cbn; [destruct (success result); cbn|] ] ].

(** What a trigger does to a watcher whose flag is clear: the handler
    either returns with the flag clear, or is suspended with the flag set
    and a closing remainder. *)
Lemma exec_handleGitChange (w : World) :
  isProcessing w = false ->
  disposables (fst (exec (handleGitChange config) w)) = disposables w /\
  pending (fst (exec (handleGitChange config) w)) = pending w /\
  rejections (trace (fst (exec (handleGitChange config) w)))
  = rejections (trace w) /\
  match snd (exec (handleGitChange config) w) with
  | Completed c =>
      c = Normal /\
      isProcessing (fst (exec (handleGitChange config) w)) = false
  | Awaiting s =>
      isProcessing (fst (exec (handleGitChange config) w)) = true /\
      closing_suspended 2 s
  end.
Proof.
  intros Hp.
  destruct w as [cs ip ds gv pd [ad ag] ck tr]. simpl in Hp. subst.
  unfold handleGitChange. cbn.
  destruct ad as [[|]|e]; cbn; flat.
  1, 3: rewrite !rejections_app; cbn; rewrite ?Nat.add_0_r; auto.
  destruct ag as [[newState|]|e]; cbn; flat.
  2, 3: rewrite !rejections_app; cbn; rewrite ?Nat.add_0_r; auto.
  destruct cs as [known|]; cbn;
    [destruct (branch known =? branch newState)%string; cbn;
     [destruct (commit known =? commit newState)%string; cbn|]|].
  all: flat; rewrite !rejections_app; cbn; rewrite ?Nat.add_0_r.
  all: repeat split; auto.
  all: intro r; closing.
Qed.

(** *** The invariant of the watcher *)

Lemma rejections_notify (sts : list IndexerState) :
  rejections (map Notify sts) = 0.
Proof. induction sts; simpl; auto. Qed.

Lemma resume_closing (n : nat) (s : Suspended) (r : Settlement) (t : Task) :
  closing_suspended n s -> resume s r = Some t -> Closing n t.
Proof.
  destruct s as [k|p k], r as [o|o]; simpl; intros H E;
    try discriminate E; injection E as <-.
  - apply H.
  - apply H.
Qed.

Lemma inv_create (given : bool) (h : Host) (r : Repository) (now : nat) :
  Inv (createGitWatcher config given h r now).
Proof.
  unfold Inv, Quiet, createGitWatcher, watchers.
  destruct (answers_getGitState r) as [[g|]|e], (head_watcher h);
    simpl; auto.
Qed.

Lemma inv_step (w : World) (e : Event) : Inv w -> Inv (step config w e).
Proof.
  intros [Hr Hw]. destruct e as [ch|i r|i p|r|n|].
  - (* a trigger *)
    destruct Hw as [[Hp Hq]|[Hp Hs]].
    2: { rewrite fire_dropped by exact Hp. split; auto. }
    unfold step. destruct (live ch w).
    2: { split; auto. left. split; assumption. }
    pose proof (exec_handleGitChange w Hp) as (_ & B & C & D).
    unfold spawn.
    destruct (exec (handleGitChange config) w) as [w' res].
    simpl in B, C, D. destruct res as [c|s].
    + destruct D as [-> D]. split; [congruence|].
      left. split; [exact D|congruence].
    + destruct D as [D1 D2]. split; [simpl; congruence|].
      right. split; [exact D1|]. exists s. simpl.
      rewrite B, Hq. auto.
  - (* a settlement *)
    unfold step. destruct Hw as [[Hp Hq]|(Hp & s & Hq & Hs)].
    + rewrite Hq. destruct i; simpl; split; auto; left; split; auto.
    + rewrite Hq. destruct i as [|i]; simpl.
      2: { destruct i; simpl; split; auto; right; split; auto; exists s; auto. }
      destruct (resume s r) as [t|] eqn:Et.
      2: { split; auto; right; split; auto; exists s; auto. }
      pose proof (@exec_closing 2 t (@resume_closing 2 s r t Hs Et) (put_pending [] w))
        as (_ & B & C & D).
      unfold spawn.
      destruct (exec t (put_pending [] w)) as [w' res].
      simpl in B, C, D. destruct res as [c|s'].
      * destruct D as [-> D]. split; [congruence|].
        left. split; [exact D|exact B].
      * destruct D as (D1 & m & Em & D2). split; [simpl; congruence|].
        right. split; [simpl; congruence|]. exists s'. simpl. rewrite B.
        split; [reflexivity|].
        injection Em as <-.
        destruct s' as [k|q k]; simpl in *.
        -- intro o. apply closing_S, D2.
        -- destruct D2 as [D2 D3]. split; [exact D2|].
           intro o. apply closing_S, D3.
  - (* a progress tick *)
    unfold step. destruct (nth_error (pending w) i) as [[k|q k]|] eqn:En;
      try (split; assumption).
    destruct Hw as [[Hp Hq]|(Hp & s & Hq & Hs)].
    + rewrite Hq in En. destruct i; discriminate En.
    + rewrite Hq in En. destruct i as [|i]; [|destruct i; discriminate En].
      simpl in En. injection En as ->. destruct Hs as [Hs1 Hs2].
      destruct (exec_reports (Hs1 p) w) as [sts E].
      unfold report. rewrite E. simpl fst. split.
      * simpl. rewrite rejections_app, rejections_notify. lia.
      * right. split; [exact Hp|]. exists (OnScan q k). simpl.
        split; [exact Hq|]. split; assumption.
  - split; [exact Hr|]. exact Hw.
  - split; [exact Hr|]. exact Hw.
  - split; [exact Hr|]. exact Hw.
Qed.

Lemma inv_run (es : list Event) : forall w, Inv w -> Inv (run config w es).
Proof.
  induction es as [|e es IH]; intros w Hw; [exact Hw|].
  rewrite run_cons. apply IH, inv_step, Hw.
Qed.

Lemma resume_answer (s : Suspended) (m : outcome ServerManifest)
    (sc : outcome ScanResult) :
  exists t, resume s (answer s m sc) = Some t.
Proof. destruct s; simpl; eauto. Qed.

(** A suspended handler with at most [n] awaits left has returned, with
    the flag clear, after [n + 1] settlements. *)
Lemma drains (ms : nat -> outcome ServerManifest) (sc : outcome ScanResult)
    (n : nat) :
  forall w s,
    pending w = [s] -> closing_suspended n s ->
    Quiet (settle_all (S n) ms sc w).
Proof.
  induction n as [|n IH]; intros w s Hq Hs.
  - simpl. rewrite Hq. unfold step. rewrite Hq. simpl.
    destruct (resume_answer s (ms 0) sc) as [t Et]. rewrite Et.
    pose proof (@exec_closing 0 t (@resume_closing 0 s _ t Hs Et)
                  (put_pending [] w)) as (_ & B & _ & D).
    unfold spawn. destruct (exec t (put_pending [] w)) as [w' res].
    simpl in B, D. destruct res as [c|s'].
    + destruct D as [-> D]. split; assumption.
    + destruct D as (_ & m & Em & _). discriminate Em.
  - change (settle_all (S (S n)) ms sc w)
      with (match pending w with
            | [] => w
            | s :: _ =>
                settle_all (S n) ms sc
                  (step config w (Settle 0 (answer s (ms (S n)) sc)))
            end).
    rewrite Hq. unfold step. rewrite Hq. simpl nth_error. cbv iota.
    destruct (resume_answer s (ms (S n)) sc) as [t Et]. rewrite Et.
    pose proof (@exec_closing (S n) t (@resume_closing (S n) s _ t Hs Et)
                  (put_pending [] w)) as (_ & B & _ & D).
    unfold spawn. simpl remove_nth.
    destruct (exec t (put_pending [] w)) as [w' res].
    simpl in B, D. destruct res as [c|s'].
    + destruct D as [-> D].
      change (settle_all (S n) ms sc w')
        with (match pending w' with
              | [] => w'
              | s :: _ =>
                  settle_all n ms sc
                    (step config w' (Settle 0 (answer s (ms n) sc)))
              end).
      rewrite B. split; assumption.
    + destruct D as (_ & m & Em & D). injection Em as <-.
      apply IH with (s := s'); [simpl; rewrite B; reflexivity|exact D].
Qed.

Lemma closing_suspended_le (n m : nat) (s : Suspended) :
  n <= m -> closing_suspended n s -> closing_suspended m s.
Proof.
  intros L. destruct s as [k|p k]; simpl.
  - intros H r. apply (closing_le L), H.
  - intros [H1 H2]. split; [exact H1|]. intro r. apply (closing_le L), H2.
Qed.

Lemma inv_drains (ms : nat -> outcome ServerManifest)
    (sc : outcome ScanResult) (w : World) :
  Inv w -> Quiet (settle_all 3 ms sc w).
Proof.
  intros [_ [Hq|(_ & s & Hq & Hs)]].
  - simpl. rewrite (proj2 Hq). exact Hq.
  - apply drains with (s := s); assumption.
Qed.

(** A trigger that finds the flag clear is handled: the handler asks for
    the state of the repository. *)
Lemma fire_accepted (w : World) (ch : Channel) :
  isProcessing w = false -> live ch w = true ->
  git_reads (trace (step config w (Fire ch))) > git_reads (trace w).
Proof.
  intros Hp Hl.
  destruct w as [cs ip ds gv pd [ad ag] ck tr].
  unfold live in Hl. simpl in Hp, Hl. subst.
  rewrite step_fire by exact Hl.
  unfold spawn, handleGitChange. cbn.
  destruct ad as [[|]|e]; cbn; flat.
  1, 3: rewrite !git_reads_app; cbn; lia.
  destruct ag as [[newState|]|e]; cbn; flat.
  2, 3: rewrite !git_reads_app; cbn; lia.
  destruct cs as [known|]; cbn;
    [destruct (branch known =? branch newState)%string; cbn;
     [destruct (commit known =? commit newState)%string; cbn|]|].
  all: flat; rewrite !git_reads_app; cbn; lia.
Qed.

(** *** Disposal *)

Lemma exec_put_disposables (d : list Disposable) (t : Task) :
  forall w,
    exec t (put_disposables d w)
    = (put_disposables d (fst (exec t w)), snd (exec t w)).
Proof.
  induction t as [c|k IH|b k IH|k IH|v k IH|p k IH|p k IH|k IH|st k IH
                  |e k IH|o p b t k IH|c m p IHp k IH]; intros w; simpl.
  - reflexivity.
  - apply IH.
  - apply (IH (put_isProcessing b w)).
  - apply IH.
  - apply (IH (put_currentState v w)).
  - apply (IH _ (note (CallIsDetachedHead p) w)).
  - apply (IH _ (note (CallGetGitState p) w)).
  - apply IH.
  - apply (IH (Returned tt) (note (Notify st) w)).
  - apply (IH (note (Telemetry e) w)).
  - reflexivity.
  - reflexivity.
Qed.

Lemma spawn_put_disposables (d : list Disposable) (t : Task) (w : World) :
  spawn t (put_disposables d w) = put_disposables d (spawn t w).
Proof.
  unfold spawn. rewrite exec_put_disposables.
  destruct (exec t w) as [w' [[| |e]|s]]; reflexivity.
Qed.

Lemma step_disposed (w : World) (e : Event) :
  step config (put_disposables [] w) e
  = put_disposables []
      (if is_trigger e then w else step config w e).
Proof.
  destruct e as [ch|i r|i p|r|n|]; unfold step; simpl; try reflexivity.
  - destruct (nth_error (pending w) i) as [s|]; [|reflexivity].
    destruct (resume s r) as [t|]; [|reflexivity].
    apply (spawn_put_disposables [] t (put_pending (remove_nth i (pending w)) w)).
  - destruct (nth_error (pending w) i) as [[k|q k]|]; try reflexivity.
    unfold report. rewrite exec_put_disposables. reflexivity.
Qed.

(** After disposal a run goes on as if the triggers in it had not
    happened, and as it would have gone on without disposal otherwise. *)
Lemma run_disposed (es : list Event) :
  forall w,
    run config (put_disposables [] w) es
    = put_disposables []
        (run config w (filter (fun e => negb (is_trigger e)) es)).
Proof.
  induction es as [|e es IH]; intros w; [reflexivity|].
  rewrite run_cons, step_disposed. simpl filter.
  destruct (is_trigger e); simpl negb; cbv iota.
  - apply IH.
  - rewrite run_cons. apply IH.
Qed.

(** *** A reconciliation, whichever path it takes *)

Lemma reconcile (w : World) (newState : GitStateSnapshot)
    (ch : Channel) (m1 : outcome ServerManifest) (ticks : list ScanProgress)
    (sc : outcome ScanResult) (m2 : outcome ServerManifest) :
  Quiet w -> live ch w = true -> sees w newState -> changed w newState ->
  run config w (reconciliation ch m1 ticks sc m2)
  = put_currentState (Some newState)
      (add_trace
         (asks ++
          path_trace (currentState w) newState m1 ticks sc m2 (clock w))
         w).
Proof.
  intros Hq Hl Hs Hc. unfold path_trace, takes_commit_path.
  destruct (currentState w) as [known|] eqn:Hk.
  - destruct (String.eqb_spec (branch known) (branch newState)) as [Eb|Nb].
    + destruct (Hc known Hk) as [Nb|Nc]; [contradiction|].
      apply (@reconcile_commit w known); assumption.
    + apply reconcile_branch; try assumption.
      intros k Ek. rewrite Hk in Ek. injection Ek as <-. exact Nb.
  - apply reconcile_branch; try assumption.
    intros k Ek. rewrite Hk in Ek. discriminate Ek.
Qed.


Lemma last_notified_snoc (tr : list Obs) (st : IndexerState) :
  last_notified (tr ++ [Notify st]) = Some st.
Proof.
  unfold last_notified. rewrite notified_app, map_app. simpl.
  apply last_last.
Qed.

(** A reconciliation ends on its last status. *)
Lemma path_trace_ends (tr : list Obs) (known : option GitStateSnapshot)
    (newState : GitStateSnapshot) (m1 : outcome ServerManifest)
    (ticks : list ScanProgress) (sc : outcome ScanResult)
    (m2 : outcome ServerManifest) (now : nat) :
  last_notified (tr ++ asks ++ path_trace known newState m1 ticks sc m2 now)
  = Some (path_final known newState sc m2 now).
Proof.
  unfold path_trace, path_final, commit_trace, branch_trace,
    commit_ending, branch_ending.
  destruct (takes_commit_path known newState);
    rewrite !app_assoc; apply last_notified_snoc.
Qed.


(** The scan is invoked once in a reconciliation, with the manifest that
    was fetched, or none. *)
Lemma path_trace_scans (known : option GitStateSnapshot)
    (newState : GitStateSnapshot) (m1 : outcome ServerManifest)
    (ticks : list ScanProgress) (sc : outcome ScanResult)
    (m2 : outcome ServerManifest) (now : nat) :
  scans (asks ++ path_trace known newState m1 ticks sc m2 now) = 1 /\
  In (CallScanDirectory config (value_or_undefined m1))
     (asks ++ path_trace known newState m1 ticks sc m2 now).
Proof.
  unfold path_trace, commit_trace, branch_trace, commit_ending, branch_ending.
  destruct (takes_commit_path known newState); split.
  - simpl. rewrite !scans_app.
    rewrite <- (map_map _ Notify), scans_notify.
    destruct (succeeded sc); reflexivity.
  - simpl. auto 10.
  - simpl. rewrite !scans_app.
    rewrite <- (map_map _ Notify), scans_notify.
    destruct (succeeded sc); reflexivity.
  - simpl. auto 10.
Qed.

(** *** Lemmas on idle watchers *)

(** With nothing pending, settlements and progress ticks have no
    addressee. *)
Lemma unawaited (es : list Event) :
  forallb is_settlement es = true ->
  forall w, pending w = [] -> run config w es = w.
Proof.
  induction es as [|e es IH]; intros Hes w Hq; [reflexivity|].
  simpl in Hes. apply andb_prop in Hes. destruct Hes as [He Hes].
  rewrite run_cons.
  assert (E : step config w e = w).
  { destruct e as [ch|i r|i p|r|n|]; try discriminate He;
      unfold step; rewrite Hq; destruct i; reflexivity. }
  rewrite E. apply IH; assumption.
Qed.

Lemma reconciliation_tail_settles (m1 : outcome ServerManifest)
    (ticks : list ScanProgress) (sc : outcome ScanResult)
    (m2 : outcome ServerManifest) :
  forallb is_settlement
    (Settle 0 (Manifest m1) ::
     map (Progress 0) ticks ++ [Settle 0 (Scan sc); Settle 0 (Manifest m2)])
  = true.
Proof.
  simpl. rewrite forallb_app. simpl. rewrite andb_true_r.
  induction ticks; simpl; auto.
Qed.

(** While the repository stays in detached HEAD state, triggers keep the
    watcher without a snapshot and never reach the scan. *)
Lemma detached_run (es : list Event) :
  forallb is_trigger es = true ->
  forall w,
    isProcessing w = false ->
    answers_isDetachedHead (repository w) = Returned true ->
    currentState w = None ->
    currentState (run config w es) = None /\
    isProcessing (run config w es) = false /\
    pending (run config w es) = pending w /\
    scans (trace (run config w es)) = scans (trace w).
Proof.
  induction es as [|e es IH]; intros Hes w Hp Hd Hc; [auto|].
  simpl in Hes. apply andb_prop in Hes. destruct Hes as [He Hes].
  destruct e as [ch| | | | |]; try discriminate He.
  rewrite run_cons.
  destruct (live ch w) eqn:Hl.
  - rewrite (fire_detached w ch Hp Hl Hd).
    destruct (IH Hes (put_currentState None
                        (add_trace [CallIsDetachedHead (workspacePath config);
                                    Notify detached_notice] w)))
      as (A & B & C & D); try assumption; try reflexivity.
    repeat split; try assumption.
    rewrite D. simpl. rewrite scans_app. simpl. lia.
  - assert (E : step config w (Fire ch) = w)
      by (unfold step; rewrite Hl; reflexivity).
    rewrite E. apply IH; assumption.
Qed.

Lemma rejections_path_trace (known : option GitStateSnapshot)
    (newState : GitStateSnapshot) (m1 : outcome ServerManifest)
    (ticks : list ScanProgress) (sc : outcome ScanResult)
    (m2 : outcome ServerManifest) (now : nat) :
  rejections (asks ++ path_trace known newState m1 ticks sc m2 now) = 0.
Proof.
  unfold path_trace, commit_trace, branch_trace, commit_ending, branch_ending.
  destruct (takes_commit_path known newState); simpl;
    rewrite !rejections_app, <- (map_map _ Notify), rejections_notify;
    destruct (succeeded sc); reflexivity.
Qed.

Lemma telemetries_notify (sts : list IndexerState) :
  telemetries (map Notify sts) = 0.
Proof. induction sts; simpl; auto. Qed.

Lemma telemetries_path_trace (known : option GitStateSnapshot)
    (newState : GitStateSnapshot) (m1 : outcome ServerManifest)
    (ticks : list ScanProgress) (sc : outcome ScanResult)
    (m2 : outcome ServerManifest) (now : nat) :
  telemetries (asks ++ path_trace known newState m1 ticks sc m2 now) = 0.
Proof.
  unfold path_trace, commit_trace, branch_trace, commit_ending, branch_ending.
  destruct (takes_commit_path known newState); simpl;
    rewrite !telemetries_app, <- (map_map _ Notify), telemetries_notify;
    destruct (succeeded sc); reflexivity.
Qed.

(** ** The claims *)

(** C1. Single-flight.  A trigger, push or poll, that arrives while the
    in-flight flag is set leaves the whole world as it was: the handler
    returns without reading the git state, classifying or scanning.  And
    when a trigger has started a reconciliation, however many further
    triggers arrive before and after its manifest fetch settles, while the
    scan has not returned, each of them is dropped and the scan pipeline
    is invoked exactly once, the git state having been read by the first
    trigger only. *)
Theorem single_flight :
  (forall (w : World) (ch : Channel),
      isProcessing w = true -> step config w (Fire ch) = w) /\
  (forall (w : World) (newState : GitStateSnapshot) (c1 c2 : Channel)
          (m1 : outcome ServerManifest) (es1 es2 : list Event),
      Quiet w -> live c1 w = true -> sees w newState -> changed w newState ->
      forallb passive es1 = true -> forallb passive es2 = true ->
      let before := run config w (Fire c1 :: es1) in
      let during :=
        run config w (Fire c1 :: es1 ++ Settle 0 (Manifest m1) :: es2) in
      step config before (Fire c2) = before /\
      step config during (Fire c2) = during /\
      scans (trace before) = scans (trace w) /\
      scans (trace during) = S (scans (trace w)) /\
      git_reads (trace during) = git_reads (trace w) + 2).
Proof.
  split; [exact fire_dropped|].
  intros w newState c1 c2 m1 es1 es2 Hq Hl Hs Hc He1 He2 before during.
  destruct (@scanning_once w newState c1 m1 es1 es2 Hq Hl Hs Hc He1 He2)
    as (A & B & C & D & E).
  repeat split; try assumption.
  - apply fire_dropped, A.
  - apply fire_dropped, B.
Qed.

(** C9. The in-flight flag.  In every world the watcher can reach from its
    creation, by any sequence of events, the flag is set exactly while a
    handler is suspended at an await, and at most one is: whenever the
    handler has returned, on whichever path, the flag is clear, and no
    rejection went unhandled.  A suspended handler returns after at most
    three settlements, however its promises settle, and then the flag is
    clear and the next trigger is handled. *)
Theorem flag_cleared_on_every_exit (given : bool) (h : Host)
    (r : Repository) (now : nat) (es : list Event) :
  let w := run config (createGitWatcher config given h r now) es in
  (isProcessing w = true <-> pending w <> []) /\
  length (pending w) <= 1 /\
  rejections (trace w) = 0 /\
  forall (ms : nat -> outcome ServerManifest) (sc : outcome ScanResult),
    let w' := settle_all 3 ms sc w in
    Quiet w' /\
    forall ch, live ch w' = true ->
      git_reads (trace (step config w' (Fire ch))) > git_reads (trace w').
Proof.
  intros w.
  assert (Hw : Inv w) by apply inv_run, inv_create.
  pose proof Hw as [Hr Hs].
  split; [|split; [|split; [exact Hr|]]].
  - split.
    + intros Hp Hq. destruct Hs as [[Hp' _]|(_ & s & Hs & _)]; congruence.
    + intros Hq. destruct Hs as [[_ Hq']|(Hp & _)]; congruence.
  - destruct Hs as [[_ ->]|(_ & s & -> & _)]; simpl; lia.
  - intros ms sc w'. pose proof (inv_drains ms sc Hw) as Hq.
    split; [exact Hq|].
    intros ch Hl. apply fire_accepted; [apply Hq|exact Hl].
Qed.

(** C6, as the code has it.  No change on a branch, no effect.  A trigger
    that finds the repository on a branch, at the branch and the commit of
    the last-known snapshot, leaves the snapshot, the flag, the pending
    promises and the status as they were, invokes the scan pipeline zero
    times and [onStateChange] zero times.  (A snapshot of the watcher is
    one on a branch; in detached state it keeps none.) *)
Theorem no_change_no_effect (w : World) (known newState : GitStateSnapshot)
    (ch : Channel) :
  currentState w = Some known -> sees w newState ->
  branch known = branch newState -> commit known = commit newState ->
  let w' := step config w (Fire ch) in
  currentState w' = currentState w /\
  isProcessing w' = isProcessing w /\
  pending w' = pending w /\
  notified (trace w') = notified (trace w) /\
  delivered w' = delivered w /\
  last_notified (trace w') = last_notified (trace w) /\
  scans (trace w') = scans (trace w).
Proof.
  intros Hk Hs Hb Hc w'.
  destruct (isProcessing w) eqn:Hp.
  { unfold w'. rewrite fire_dropped by exact Hp. rewrite Hp. auto 10. }
  destruct (live ch w) eqn:Hl.
  2: { unfold w', step. rewrite Hl, Hp. auto 10. }
  unfold w'. rewrite (@fire_unchanged w known newState ch Hp Hl Hs Hk Hb Hc).
  unfold delivered, last_notified. simpl.
  rewrite notified_app, scans_app. simpl. rewrite app_nil_r, Nat.add_0_r.
  auto 10.
Qed.

(** C5. Detached HEAD.  A trigger that finds the repository in detached
    HEAD state makes the status idle, with the message of detached mode
    and no branch, clears the last-known snapshot and does not invoke the
    scan pipeline.  Further triggers, while the repository stays detached,
    keep the watcher so; and the next trigger that finds the repository on
    a branch runs the branch-change reconciliation. *)
Theorem detached_head_suspends (w : World) (ch : Channel) :
  isProcessing w = false -> live ch w = true ->
  answers_isDetachedHead (repository w) = Returned true ->
  let w' := step config w (Fire ch) in
  last_notified (trace w') = Some detached_notice /\
  status detached_notice = idle /\
  message detached_notice = "Detached HEAD state - indexing disabled" /\
  gitBranch detached_notice = None /\
  currentState w' = None /\
  isProcessing w' = false /\
  pending w' = pending w /\
  scans (trace w') = scans (trace w) /\
  (forall es, forallb is_trigger es = true ->
     currentState (run config w' es) = None /\
     scans (trace (run config w' es)) = scans (trace w)) /\
  (forall (r2 : Repository) (newState : GitStateSnapshot) (ch2 : Channel)
          (m1 : outcome ServerManifest) (ticks : list ScanProgress)
          (sc : outcome ScanResult) (m2 : outcome ServerManifest),
     pending w = [] -> live ch2 w = true ->
     answers_isDetachedHead r2 = Returned false ->
     answers_getGitState r2 = Returned (Some newState) ->
     trace (run config w'
              (RepositoryBecomes r2 :: reconciliation ch2 m1 ticks sc m2))
     = trace w' ++ asks ++
       branch_trace (branch newState) m1 ticks sc m2 (clock w)).
Proof.
  intros Hp Hl Hd w'. unfold w'. rewrite (fire_detached w ch Hp Hl Hd).
  assert (Hscans : scans (trace w ++
                          [CallIsDetachedHead (workspacePath config);
                           Notify detached_notice])
                   = scans (trace w))
    by (rewrite scans_app; simpl; lia).
  split.
  { unfold last_notified. simpl. rewrite notified_app, map_app. simpl.
    apply last_last. }
  do 3 (split; [reflexivity|]). split; [reflexivity|].
  split; [exact Hp|]. split; [reflexivity|]. split; [exact Hscans|].
  split.
  - intros es Hes.
    destruct (@detached_run es Hes
                (put_currentState None
                   (add_trace [CallIsDetachedHead (workspacePath config);
                               Notify detached_notice] w))
                Hp Hd eq_refl)
      as (A & _ & _ & D).
    split; [exact A|]. rewrite D. exact Hscans.
  - intros r2 newState ch2 m1 ticks sc m2 Hq Hl2 Hd2 Hg2.
    rewrite run_cons.
    rewrite reconcile_branch with (newState := newState).
    + reflexivity.
    + split; [exact Hp|exact Hq].
    + exact Hl2.
    + split; assumption.
    + intros known E. discriminate E.
Qed.

(** C2. Branch switch first.  With a last-known snapshot and a
    repository on a branch: when the branch differs, the reconciliation
    that runs is the branch-change one, whether or not the commit differs
    too; and the commit reconciliation is the one that runs exactly when
    the branch is the same and the commit differs. *)
Theorem branch_switch_takes_priority (w : World)
    (known newState : GitStateSnapshot) (ch : Channel)
    (m1 : outcome ServerManifest) (ticks : list ScanProgress)
    (sc : outcome ScanResult) (m2 : outcome ServerManifest) :
  Quiet w -> live ch w = true -> sees w newState ->
  currentState w = Some known ->
  let w' := run config w (reconciliation ch m1 ticks sc m2) in
  (branch known <> branch newState ->
   trace w' = trace w ++ asks ++
              branch_trace (branch newState) m1 ticks sc m2 (clock w)) /\
  (trace w' = trace w ++ asks ++
              commit_trace (branch newState) m1 ticks sc m2 (clock w)
   <-> branch known = branch newState /\ commit known <> commit newState).
Proof.
  intros Hq Hl Hs Hk w'.
  assert (Hbranch : branch known <> branch newState ->
            trace w' = trace w ++ asks ++
                       branch_trace (branch newState) m1 ticks sc m2 (clock w)).
  { intros Nb. unfold w'. rewrite reconcile_branch with (newState := newState);
      try assumption; [reflexivity|].
    intros k Ek. rewrite Hk in Ek. injection Ek as <-. exact Nb. }
  split; [exact Hbranch|]. split.
  - intros E.
    destruct (String.eqb_spec (branch known) (branch newState)) as [Eb|Nb].
    + split; [exact Eb|]. intros Ec.
      unfold w', reconciliation in E.
      rewrite run_cons in E.
      rewrite (@fire_unchanged w known newState ch (proj1 Hq) Hl Hs Hk Eb Ec)
        in E.
      rewrite unawaited in E;
        [|apply reconciliation_tail_settles|exact (proj2 Hq)].
      simpl in E. apply app_inv_head in E.
      apply (f_equal (@length Obs)) in E. simpl in E. lia.
    + rewrite (Hbranch Nb) in E. do 2 apply app_inv_head in E.
      unfold branch_trace, commit_trace in E. simpl in E.
      discriminate E.
  - intros [Eb Nc]. unfold w'.
    rewrite (@reconcile_commit w known newState); try assumption.
    reflexivity.
Qed.

(** C3. Scan failure.  When the scan pipeline returns [success: false]
    during a reconciliation, on either path, the status becomes an error
    with a non-empty message that carries the failure; no rejection goes
    unhandled, the watcher keeps its channels, its flag is clear and
    nothing stays pending; and a later trigger that finds a change runs
    the whole reconciliation for it, scan included. *)
Theorem scan_failure_is_reported (w : World) (newState : GitStateSnapshot)
    (ch : Channel) (m1 : outcome ServerManifest) (ticks : list ScanProgress)
    (result : ScanResult) (m2 : outcome ServerManifest) :
  Quiet w -> live ch w = true -> sees w newState -> changed w newState ->
  success result = false ->
  let w' := run config w (reconciliation ch m1 ticks (Returned result) m2) in
  (exists st,
      last_notified (trace w') = Some st /\
      status st = error /\ message st <> "" /\
      st_error st = Some (scan_failed result) /\
      gitBranch st = Some (branch newState)) /\
  Quiet w' /\
  disposables w' = disposables w /\
  rejections (trace w') = rejections (trace w) /\
  (forall (r2 : Repository) (next : GitStateSnapshot) (ch2 : Channel)
          (m1' : outcome ServerManifest) (ticks' : list ScanProgress)
          (sc' : outcome ScanResult) (m2' : outcome ServerManifest),
      live ch2 w = true ->
      answers_isDetachedHead r2 = Returned false ->
      answers_getGitState r2 = Returned (Some next) ->
      branch newState <> branch next \/ commit newState <> commit next ->
      let w'' := run config w'
                   (RepositoryBecomes r2 ::
                    reconciliation ch2 m1' ticks' sc' m2') in
      trace w'' = trace w' ++ asks ++
                  path_trace (Some newState) next m1' ticks' sc' m2' (clock w) /\
      scans (trace w'') = S (scans (trace w')) /\
      last_notified (trace w'')
      = Some (path_final (Some newState) next sc' m2' (clock w)) /\
      currentState w'' = Some next /\ Quiet w'').
Proof.
  intros Hq Hl Hs Hc Hf w'.
  assert (E : w' = put_currentState (Some newState)
                     (add_trace
                        (asks ++
                         path_trace (currentState w) newState m1 ticks
                           (Returned result) m2 (clock w)) w))
    by (apply reconcile; assumption).
  rewrite E. split; [|split; [exact Hq|split; [reflexivity|split]]].
  - eexists. split; [apply path_trace_ends|].
    unfold path_final, commit_final, branch_final.
    rewrite Hf.
    destruct (takes_commit_path (currentState w) newState); simpl;
      repeat split; try reflexivity.
    + intros A. discriminate A.
    + intros A. discriminate A.
  - cbn [trace put_currentState add_trace].
    rewrite rejections_app, rejections_path_trace. lia.
  - intros r2 next ch2 m1' ticks' sc' m2' Hl2 Hd2 Hg2 Hn w''.
    assert (E2 : w'' = put_currentState (Some next)
                     (add_trace
                        (asks ++
                         path_trace (Some newState) next m1' ticks' sc' m2'
                           (clock w))
                        (put_repository r2 w'))).
    { unfold w''. rewrite run_cons, E.
      apply (@reconcile
               (put_repository r2
                  (put_currentState (Some newState)
                     (add_trace
                        (asks ++
                         path_trace (currentState w) newState m1 ticks
                           (Returned result) m2 (clock w)) w)))
               next ch2 m1' ticks' sc' m2').
      - exact Hq.
      - exact Hl2.
      - split; assumption.
      - intros k Ek. injection Ek as <-. exact Hn. }
    rewrite E2, E.
    cbn [trace put_currentState put_repository add_trace currentState
         isProcessing pending].
    split; [reflexivity|]. split; [|split; [|split; [reflexivity|exact Hq]]].
    + rewrite scans_app, (proj1 (path_trace_scans _ _ _ _ _ _ _)). lia.
    + apply path_trace_ends.
Qed.


(** With a callback that returns, the snapshot is replaced whatever the
    outcome of the reconciliation, and a trigger that follows with the git
    state unchanged does nothing. *)
Theorem snapshot_replaced_whatever_the_outcome (w : World)
    (newState : GitStateSnapshot) (ch : Channel)
    (m1 : outcome ServerManifest) (ticks : list ScanProgress)
    (sc : outcome ScanResult) (m2 : outcome ServerManifest) :
  Quiet w -> live ch w = true -> sees w newState -> changed w newState ->
  let w' := run config w (reconciliation ch m1 ticks sc m2) in
  currentState w' = Some newState /\
  Quiet w' /\
  (succeeded sc = false ->
   exists st, last_notified (trace w') = Some st /\ status st = error) /\
  telemetries (trace w') = telemetries (trace w) /\
  rejections (trace w') = rejections (trace w) /\
  (forall ch2, live ch2 w = true ->
     step config w' (Fire ch2) = add_trace asks w' /\
     notified (trace (step config w' (Fire ch2))) = notified (trace w') /\
     scans (trace (step config w' (Fire ch2))) = scans (trace w')).
Proof.
  intros Hq Hl Hs Hc w'.
  assert (E : w' = put_currentState (Some newState)
                     (add_trace
                        (asks ++
                         path_trace (currentState w) newState m1 ticks sc m2
                           (clock w)) w))
    by (apply reconcile; assumption).
  rewrite E.
  split; [reflexivity|]. split; [exact Hq|]. split; [|split; [|split]].
  - intros Hf. eexists. split; [apply path_trace_ends|].
    unfold path_final, commit_final, branch_final.
    destruct sc as [result|e]; simpl in Hf; rewrite ?Hf;
      destruct (takes_commit_path (currentState w) newState); reflexivity.
  - cbn [trace put_currentState add_trace].
    rewrite telemetries_app, telemetries_path_trace. lia.
  - cbn [trace put_currentState add_trace].
    rewrite rejections_app, rejections_path_trace. lia.
  - intros ch2 Hl2.
    assert (F : step config
                  (put_currentState (Some newState)
                     (add_trace
                        (asks ++
                         path_trace (currentState w) newState m1 ticks sc m2
                           (clock w)) w))
                  (Fire ch2)
                = add_trace asks
                    (put_currentState (Some newState)
                       (add_trace
                          (asks ++
                           path_trace (currentState w) newState m1 ticks sc
                             m2 (clock w)) w))).
    { apply (@fire_unchanged _ newState newState ch2);
        try reflexivity; [apply Hq|exact Hl2|exact Hs]. }
    rewrite F. split; [reflexivity|].
    cbn [trace put_currentState add_trace].
    rewrite !notified_app, !scans_app. simpl.
    rewrite !app_nil_r, !Nat.add_0_r. auto.
Qed.

(** C7, as the code has it.  Disposal empties the list of disposables:
    the polling timer is stopped and every push watcher unsubscribed, so
    from then on no trigger reaches the handler.  It does not touch the
    callback: a reconciliation in flight at disposal goes on as it would
    have without disposal, and its statuses are passed to [onStateChange]
    all the same. *)
Theorem disposal_stops_triggers_only (w : World) (es : list Event) :
  let d := step config w Dispose in
  let settled := filter (fun e => negb (is_trigger e)) es in
  disposables d = [] /\
  onStateChange_given d = onStateChange_given w /\
  pending d = pending w /\
  (forall ch, step config (run config d es) (Fire ch) = run config d es) /\
  notified (trace (run config d es))
  = notified (trace (run config w settled)) /\
  delivered (run config d es) = delivered (run config w settled).
Proof.
  intros d settled. unfold d.
  change (step config w Dispose) with (put_disposables [] w).
  rewrite run_disposed. fold settled.
  repeat split; reflexivity.
Qed.

(** C8, as the code has it.  With the same answers of the manifest
    service and of the scan pipeline, the commit reconciliation calls what
    the branch-change reconciliation calls, in the same order and with the
    same arguments, and reports the same statuses up to their message,
    except for one: the branch-change reconciliation reports an additional
    scanning status between the manifest fetch and the scan. *)
Theorem commit_path_mirrors_branch_path (wb wc : World)
    (known newState : GitStateSnapshot) (ch : Channel)
    (m1 : outcome ServerManifest) (ticks : list ScanProgress)
    (sc : outcome ScanResult) (m2 : outcome ServerManifest) :
  Quiet wb -> live ch wb = true -> sees wb newState ->
  (forall k, currentState wb = Some k -> branch k <> branch newState) ->
  Quiet wc -> live ch wc = true -> sees wc newState ->
  currentState wc = Some known ->
  branch known = branch newState -> commit known <> commit newState ->
  clock wb = clock wc ->
  exists first rest same,
    trace (run config wb (reconciliation ch m1 ticks sc m2))
    = trace wb ++ first ++ announcement (branch newState) :: rest /\
    length first = 4 /\
    trace (run config wc (reconciliation ch m1 ticks sc m2))
    = trace wc ++ same /\
    map erase same = map erase (first ++ rest).
Proof.
  intros Hqb Hlb Hsb Hb Hqc Hlc Hsc Hk Eb Nc Hclock.
  rewrite reconcile_branch with (newState := newState) by assumption.
  rewrite (@reconcile_commit wc known newState) by assumption.
  exists (asks ++
          [Notify (state scanning
                     ("Branch changed to " ++ branch newState ++
                      ", fetching manifest...")
                     (Some (branch newState)));
           fetch (branch newState)]).
  exists (CallScanDirectory config (value_or_undefined m1) ::
          map (fun t => Notify (branch_progress (branch newState) t)) ticks ++
          branch_ending (branch newState) sc m2 (clock wb)).
  eexists. split; [|split; [reflexivity|split; [reflexivity|]]].
  - cbn [trace put_currentState add_trace]. unfold branch_trace, announcement.
    rewrite <- !app_assoc. reflexivity.
  - rewrite Hclock.
    unfold commit_trace, commit_ending, branch_ending, commit_final,
      branch_final, asks.
    cbn [app map erase]. do 5 f_equal.
    rewrite !map_app, !map_map. f_equal.
    destruct sc as [result|e]; simpl; [destruct (success result)|];
      reflexivity.
Qed.

(** ** Beyond the claims *)

Lemma fetches_app (a b : list Obs) :
  fetches (a ++ b) = fetches a + fetches b.
Proof.
  induction a as [|o a IH]; simpl; [reflexivity|].
  destruct o; simpl; rewrite ?IH; reflexivity.
Qed.

Lemma fetches_notify (sts : list IndexerState) :
  fetches (map Notify sts) = 0.
Proof. induction sts; simpl; auto. Qed.

(** The manifest is fetched once before the scan, and once more after a
    scan that succeeded. *)
Lemma path_trace_fetches (known : option GitStateSnapshot)
    (newState : GitStateSnapshot) (m1 : outcome ServerManifest)
    (ticks : list ScanProgress) (sc : outcome ScanResult)
    (m2 : outcome ServerManifest) (now : nat) :
  fetches (asks ++ path_trace known newState m1 ticks sc m2 now)
  = if succeeded sc then 2 else 1.
Proof.
  unfold path_trace, commit_trace, branch_trace, commit_ending, branch_ending.
  destruct (takes_commit_path known newState); simpl;
    rewrite !fetches_app, <- (map_map _ Notify), fetches_notify;
    destruct (succeeded sc); reflexivity.
Qed.

(** A branch-change reconciliation during which the repository moves and
    the clock advances. *)
Lemma reconcile_branch_amid (w : World) (newState : GitStateSnapshot)
    (ch : Channel) (moved : Repository) (m1 : outcome ServerManifest)
    (ticks : list ScanProgress) (sc : outcome ScanResult) (finished : nat)
    (m2 : outcome ServerManifest) :
  Quiet w -> live ch w = true -> sees w newState ->
  (forall known, currentState w = Some known ->
                 branch known <> branch newState) ->
  run config w (reconciliation_amid ch moved m1 ticks sc finished m2)
  = put_clock finished
      (put_repository moved
         (put_currentState (Some newState)
            (add_trace
               (asks ++ branch_trace (branch newState) m1 ticks sc m2 finished)
               w))).
Proof.
  intros [Hp Hq] Hl [Hd Hg] Hb.
  unfold reconciliation_amid.
  destruct w as [cs ip ds gv pd [ad ag] ck tr].
  unfold live in Hl. simpl in Hp, Hq, Hd, Hg, Hb, Hl. subst.
  rewrite run_cons, step_fire by exact Hl.
  assert (Hne : forall known, cs = Some known ->
                  (branch known =? branch newState)%string = false)
    by (intros k E; apply String.eqb_neq, Hb, E).
  unfold spawn at 1, handleGitChange. cbn.
  destruct cs as [known|]; cbn; [rewrite (Hne known eq_refl); cbn|].
  all: flat; deliver; deliver.
  all: rewrite run_app.
  all: erewrite progress_ticks with (f := branch_progress (branch newState));
    [|intros; reflexivity|reflexivity].
  all: flat; deliver.
  all: destruct sc as [result|e]; cbn; [destruct (success result) eqn:Hs; cbn|].
  all: flat; deliver; deliver.
  all: unfold run, asks, branch_trace, branch_ending, branch_final,
         branch_failure, succeeded, fetch;
       cbn [fold_left]; rewrite ?Hs.
  all: f_equal; repeat (rewrite <- app_assoc; cbn [app]); reflexivity.
Qed.

(** The same along the commit path. *)
Lemma reconcile_commit_amid (w : World) (known newState : GitStateSnapshot)
    (ch : Channel) (moved : Repository) (m1 : outcome ServerManifest)
    (ticks : list ScanProgress) (sc : outcome ScanResult) (finished : nat)
    (m2 : outcome ServerManifest) :
  Quiet w -> live ch w = true -> sees w newState ->
  currentState w = Some known ->
  branch known = branch newState -> commit known <> commit newState ->
  run config w (reconciliation_amid ch moved m1 ticks sc finished m2)
  = put_clock finished
      (put_repository moved
         (put_currentState (Some newState)
            (add_trace
               (asks ++ commit_trace (branch newState) m1 ticks sc m2 finished)
               w))).
Proof.
  intros [Hp Hq] Hl [Hd Hg] Hk Hb Hc.
  unfold reconciliation_amid.
  destruct w as [cs ip ds gv pd [ad ag] ck tr].
  unfold live in Hl. simpl in Hp, Hq, Hd, Hg, Hk, Hl. subst.
  apply String.eqb_neq in Hc.
  rewrite run_cons, step_fire by exact Hl.
  unfold spawn at 1, handleGitChange. cbn.
  rewrite Hb, String.eqb_refl, Hc. cbn.
  flat; deliver; deliver.
  rewrite run_app.
  erewrite progress_ticks with (f := commit_progress (branch newState));
    [|intros; reflexivity|reflexivity].
  flat; deliver.
  destruct sc as [result|e]; cbn; [destruct (success result) eqn:Hs; cbn|].
  all: flat; deliver; deliver.
  all: unfold run, asks, commit_trace, commit_ending, commit_final,
         commit_failure, succeeded, fetch;
       cbn [fold_left]; rewrite ?Hs.
  all: f_equal; repeat (rewrite <- app_assoc; cbn [app]); reflexivity.
Qed.

Lemma reconcile_amid (w : World) (newState : GitStateSnapshot)
    (ch : Channel) (moved : Repository) (m1 : outcome ServerManifest)
    (ticks : list ScanProgress) (sc : outcome ScanResult) (finished : nat)
    (m2 : outcome ServerManifest) :
  Quiet w -> live ch w = true -> sees w newState -> changed w newState ->
  run config w (reconciliation_amid ch moved m1 ticks sc finished m2)
  = put_clock finished
      (put_repository moved
         (put_currentState (Some newState)
            (add_trace
               (asks ++
                path_trace (currentState w) newState m1 ticks sc m2 finished)
               w))).
Proof.
  intros Hq Hl Hs Hc. unfold path_trace, takes_commit_path.
  destruct (currentState w) as [known|] eqn:Hk.
  - destruct (String.eqb_spec (branch known) (branch newState)) as [Eb|Nb].
    + destruct (Hc known Hk) as [Nb|Nc]; [contradiction|].
      apply (@reconcile_commit_amid w known); assumption.
    + apply reconcile_branch_amid; try assumption.
      intros k Ek. rewrite Hk in Ek. injection Ek as <-. exact Nb.
  - apply reconcile_branch_amid; try assumption.
    intros k Ek. rewrite Hk in Ek. discriminate Ek.
Qed.


(** While the repository stays as the last-known snapshot has it,
    triggers leave the watcher as it is. *)
Lemma unchanged_run (s : GitStateSnapshot) (es : list Event) :
  forallb is_trigger es = true ->
  forall w,
    isProcessing w = false -> sees w s -> currentState w = Some s ->
    currentState (run config w es) = Some s /\
    isProcessing (run config w es) = false /\
    pending (run config w es) = pending w /\
    notified (trace (run config w es)) = notified (trace w) /\
    scans (trace (run config w es)) = scans (trace w) /\
    fetches (trace (run config w es)) = fetches (trace w).
Proof.
  induction es as [|e es IH]; intros Hes w Hp Hs Hc; [auto 10|].
  simpl in Hes. apply andb_prop in Hes. destruct Hes as [He Hes].
  destruct e as [ch| | | | |]; try discriminate He.
  rewrite run_cons.
  destruct (live ch w) eqn:Hl.
  - rewrite (@fire_unchanged w s s ch Hp Hl Hs Hc eq_refl eq_refl).
    destruct (IH Hes (add_trace asks w) Hp Hs Hc) as (A & B & C & D & E & F).
    repeat split; try assumption.
    + rewrite D. simpl. rewrite notified_app. simpl. apply app_nil_r.
    + rewrite E. simpl. rewrite scans_app. simpl. lia.
    + rewrite F. simpl. rewrite fetches_app. simpl. lia.
  - assert (E : step config w (Fire ch) = w)
      by (unfold step; rewrite Hl; reflexivity).
    rewrite E. apply IH; assumption.
Qed.

(** X1. Setting up.  Whatever the host allows, the polling timer is set
    up, and the watcher starts with no handler in flight and without
    having scanned.  The HEAD watcher delivers exactly when its creation
    succeeded; the refs watcher and the packed-refs watcher only when that
    of HEAD succeeded too, the latter only if the packed-refs file exists.
    When the creation of the HEAD watcher throws, polling is the only
    channel and the error is reported to telemetry. *)
Theorem polling_is_always_set_up (given : bool) (h : Host) (r : Repository)
    (now : nat) :
  let w := createGitWatcher config given h r now in
  live Poll w = true /\ Quiet w /\ scans (trace w) = 0 /\
  (live Head w = true <-> exists u, head_watcher h = Returned u) /\
  (live RefsHeads w = true <->
   (exists u, head_watcher h = Returned u) /\
   (exists u, refs_watcher h = Returned u)) /\
  (live PackedRefs w = true <->
   (exists u, head_watcher h = Returned u) /\
   packed_refs_exists h = true /\
   (exists u, packed_refs_watcher h = Returned u)) /\
  (forall e, head_watcher h = Thrown e ->
     In (Telemetry e) (trace w) /\
     forall ch, live ch w = true -> ch = Poll).
Proof.
  destruct h as [[[]|eh] [[]|er] [|] [[]|ep]];
    destruct r as [ad [[g|]|eg]];
    unfold createGitWatcher, watchers, live, Quiet; simpl;
    (split; [reflexivity|]); (split; [split; reflexivity|]);
    (split; [reflexivity|]);
    repeat split;
    try (intros; discriminate);
    try (intros; eauto; fail);
    try (intros [u U]; discriminate U);
    try (intros [[u U] _]; discriminate U);
    try (intros [_ [u U]]; discriminate U);
    try (intros [_ [U _]]; discriminate U);
    try (intros [_ [_ [u U]]]; discriminate U).
  all: try (intros e E; injection E as <-; split; [simpl; auto|]).
  all: try (intros ch; destruct ch; simpl; intros; congruence).
  all: match goal with
       | E : Thrown _ = Thrown _ |- _ => injection E as <-; auto 6
       end.
Qed.

(** X2. No indexing at start.  A watcher created on a repository that is
    on a branch adopts the snapshot silently; as long as the repository
    stays there, no number of triggers makes it notify, fetch a manifest
    or scan. *)
Theorem unchanged_repository_is_never_indexed (given : bool) (h : Host)
    (r : Repository) (now : nat) (s : GitStateSnapshot) (es : list Event) :
  answers_isDetachedHead r = Returned false ->
  answers_getGitState r = Returned (Some s) ->
  forallb is_trigger es = true ->
  let w := run config (createGitWatcher config given h r now) es in
  currentState w = Some s /\ Quiet w /\
  notified (trace w) = [] /\ fetches (trace w) = 0 /\ scans (trace w) = 0.
Proof.
  intros Hd Hg Hes w. unfold w. clear w.
  assert (Hc : currentState (createGitWatcher config given h r now) = Some s)
    by (unfold createGitWatcher; rewrite Hg; reflexivity).
  assert (Ht : notified (trace (createGitWatcher config given h r now)) = [] /\
               fetches (trace (createGitWatcher config given h r now)) = 0 /\
               scans (trace (createGitWatcher config given h r now)) = 0).
  { unfold createGitWatcher, watchers. rewrite Hg.
    destruct (head_watcher h); simpl; auto. }
  assert (Hq : Quiet (createGitWatcher config given h r now)).
  { unfold createGitWatcher, Quiet. rewrite Hg. split; reflexivity. }
  assert (Hs : sees (createGitWatcher config given h r now) s).
  { unfold createGitWatcher, sees. rewrite Hg. simpl. rewrite Hg. auto. }
  destruct (@unchanged_run s es Hes _ (proj1 Hq) Hs Hc)
    as (A & B & C & D & E & F).
  destruct Ht as (T1 & T2 & T3).
  split; [exact A|]. split; [split; [exact B|rewrite C; apply Hq]|].
  split; [rewrite D; exact T1|]. split; [rewrite F; exact T2|].
  rewrite E. exact T3.
Qed.

(** X3. Created without a snapshot.  When [getGitState] answers [null] or
    throws at creation, the watcher starts without a snapshot, having
    reported idle in the first case only; the first trigger that then
    finds the repository on a branch runs the branch-change
    reconciliation for it. *)
Theorem first_branch_is_established (given : bool) (h : Host)
    (r moved : Repository) (now : nat) (newState : GitStateSnapshot)
    (ch : Channel) (m1 : outcome ServerManifest) (ticks : list ScanProgress)
    (sc : outcome ScanResult) (m2 : outcome ServerManifest) :
  (forall s, answers_getGitState r <> Returned (Some s)) ->
  answers_isDetachedHead moved = Returned false ->
  answers_getGitState moved = Returned (Some newState) ->
  live ch (createGitWatcher config given h r now) = true ->
  let w := createGitWatcher config given h r now in
  currentState w = None /\
  notified (trace w)
  = match answers_getGitState r with
    | Returned _ => [detached_notice]
    | Thrown _ => []
    end /\
  trace (run config w
           (RepositoryBecomes moved :: reconciliation ch m1 ticks sc m2))
  = trace w ++ asks ++ branch_trace (branch newState) m1 ticks sc m2 now.
Proof.
  intros Hn Hd Hg Hl w.
  assert (Hc : currentState w = None).
  { unfold w, createGitWatcher.
    destruct (answers_getGitState r) as [[s|]|e]; [|reflexivity|reflexivity].
    destruct (Hn s eq_refl). }
  assert (Hq : Quiet w).
  { unfold w, createGitWatcher, Quiet.
    destruct (answers_getGitState r) as [[s|]|e]; split; reflexivity. }
  assert (Hk : clock w = now).
  { unfold w, createGitWatcher.
    destruct (answers_getGitState r) as [[s|]|e]; reflexivity. }
  split; [exact Hc|]. split.
  - unfold w, createGitWatcher, watchers.
    destruct (answers_getGitState r) as [[s|]|e];
      [destruct (Hn s eq_refl)| |];
      destruct (head_watcher h); reflexivity.
  - rewrite run_cons.
    rewrite reconcile_branch with (newState := newState).
    + simpl. rewrite Hk. reflexivity.
    + exact Hq.
    + exact Hl.
    + split; assumption.
    + intros known E. simpl in E. rewrite Hc in E. discriminate E.
Qed.

(** X4. A failing git utility.  When [isDetachedHead] or [getGitState]
    throws on a trigger, the handler reports the error text to telemetry,
    once, and returns with the flag clear: the last-known snapshot, the
    pending promises and the status stay as they were, nothing is scanned
    and no rejection goes unhandled. *)
Theorem git_failure_is_captured (w : World) (ch : Channel) (e : string) :
  isProcessing w = false -> live ch w = true ->
  answers_isDetachedHead (repository w) = Thrown e \/
  (answers_isDetachedHead (repository w) = Returned false /\
   answers_getGitState (repository w) = Thrown e) ->
  let w' := step config w (Fire ch) in
  currentState w' = currentState w /\
  isProcessing w' = false /\
  pending w' = pending w /\
  notified (trace w') = notified (trace w) /\
  scans (trace w') = scans (trace w) /\
  telemetries (trace w') = S (telemetries (trace w)) /\
  In (Telemetry e) (trace w') /\
  rejections (trace w') = rejections (trace w).
Proof.
  intros Hp Hl [Hd|[Hd Hg]] w'; unfold w'.
  - rewrite (@fire_throws_early w ch e Hp Hl Hd). simpl.
    rewrite notified_app, scans_app, telemetries_app, rejections_app. simpl.
    rewrite app_nil_r, !Nat.add_0_r, Nat.add_1_r.
    repeat split; auto. apply in_or_app. right. simpl. auto.
  - rewrite (@fire_throws_late w ch e Hp Hl Hd Hg). simpl.
    rewrite notified_app, scans_app, telemetries_app, rejections_app. simpl.
    rewrite app_nil_r, !Nat.add_0_r, Nat.add_1_r.
    repeat split; auto. apply in_or_app. right. simpl. auto.
Qed.

(** X5. A state that cannot be read.  When the repository is not detached
    and [getGitState] answers [null], the trigger is ignored: unlike in
    detached HEAD state the last-known snapshot is kept, nothing is
    reported, to the callback or to telemetry, and nothing is scanned. *)
Theorem unreadable_state_is_ignored (w : World) (ch : Channel) :
  isProcessing w = false -> live ch w = true ->
  answers_isDetachedHead (repository w) = Returned false ->
  answers_getGitState (repository w) = Returned None ->
  let w' := step config w (Fire ch) in
  currentState w' = currentState w /\
  isProcessing w' = false /\
  pending w' = pending w /\
  notified (trace w') = notified (trace w) /\
  telemetries (trace w') = telemetries (trace w) /\
  scans (trace w') = scans (trace w).
Proof.
  intros Hp Hl Hd Hg w'. unfold w'.
  rewrite (@fire_unreadable w ch Hp Hl Hd Hg). simpl.
  rewrite notified_app, scans_app, telemetries_app. simpl.
  rewrite app_nil_r, !Nat.add_0_r. auto 10.
Qed.

(** With a callback that returns, a scan that throws ends the
    reconciliation in an error status that carries the text of the
    exception. *)
Theorem scan_exception_is_reported (w : World) (newState : GitStateSnapshot)
    (ch : Channel) (m1 : outcome ServerManifest) (ticks : list ScanProgress)
    (e : string) (m2 : outcome ServerManifest) :
  Quiet w -> live ch w = true -> sees w newState -> changed w newState ->
  let w' := run config w (reconciliation ch m1 ticks (Thrown e) m2) in
  (exists st,
      last_notified (trace w') = Some st /\
      status st = error /\
      st_error st = Some e /\
      gitBranch st = Some (branch newState) /\
      message st
      = (if takes_commit_path (currentState w) newState
         then "Failed to update index after commit: " ++ e
         else "Failed to index branch " ++ branch newState ++ ": " ++ e)%string)
  /\
  fetches (trace w') = S (fetches (trace w)) /\
  scans (trace w') = S (scans (trace w)) /\
  currentState w' = Some newState /\ Quiet w'.
Proof.
  intros Hq Hl Hs Hc w'.
  assert (E : w' = put_currentState (Some newState)
                     (add_trace
                        (asks ++
                         path_trace (currentState w) newState m1 ticks
                           (Thrown e) m2 (clock w)) w))
    by (apply reconcile; assumption).
  rewrite E. cbn [trace put_currentState add_trace currentState].
  split; [|split; [|split; [|split; [reflexivity|exact Hq]]]].
  - eexists. split; [apply path_trace_ends|].
    unfold path_final, commit_final, branch_final.
    destruct (takes_commit_path (currentState w) newState); auto.
  - rewrite fetches_app, path_trace_fetches. simpl. lia.
  - rewrite scans_app, (proj1 (path_trace_scans _ _ _ _ _ _ _)). lia.
Qed.




(** X10. The time of the last sync.  The watching status of a successful
    reconciliation carries the time at which its last promise settled,
    whatever the clock read when the trigger fired. *)
Theorem last_sync_time_is_completion_time (w : World)
    (newState : GitStateSnapshot) (ch : Channel) (moved : Repository)
    (m1 : outcome ServerManifest) (ticks : list ScanProgress)
    (result : ScanResult) (finished : nat) (m2 : outcome ServerManifest) :
  Quiet w -> live ch w = true -> sees w newState -> changed w newState ->
  success result = true ->
  let w' := run config w
              (reconciliation_amid ch moved m1 ticks (Returned result)
                 finished m2) in
  exists st,
    last_notified (trace w') = Some st /\
    status st = watching /\
    lastSyncTime st = Some finished.
Proof.
  intros Hq Hl Hs Hc Hr w'.
  assert (E : w' = put_clock finished
                     (put_repository moved
                        (put_currentState (Some newState)
                           (add_trace
                              (asks ++
                               path_trace (currentState w) newState m1 ticks
                                 (Returned result) m2 finished) w))))
    by (apply reconcile_amid; assumption).
  rewrite E. eexists. split; [apply path_trace_ends|].
  unfold path_final, commit_final, branch_final. rewrite Hr.
  destruct (takes_commit_path (currentState w) newState); auto.
Qed.

(** ** The watcher with any callback: properties *)

(** A callback that returns makes no difference. *)
Lemma exec_with_returns (cb : Callback) (t : Task) :
  forall w, returns cb w -> exec_with cb t w = exec t w.
Proof.
  induction t as [c|k IH|b k IH|k IH|v k IH|p k IH|p k IH|k IH|st k IH
                  |e k IH|o p b t k IH|c m p IHp k IH]; intros w H; simpl.
  - reflexivity.
  - apply IH, H.
  - apply (IH (put_isProcessing b w)), H.
  - apply IH, H.
  - apply (IH (put_currentState v w)), H.
  - apply (IH _ (note (CallIsDetachedHead p) w)), H.
  - apply (IH _ (note (CallGetGitState p) w)), H.
  - apply IH, H.
  - destruct (onStateChange_given w) eqn:G.
    + rewrite (H G st). apply (IH _ (note (Notify st) w)).
      intros _. apply (H G).
    + apply (IH _ (note (Notify st) w)).
      intros G'. simpl in G'. congruence.
  - apply (IH (note (Telemetry e) w)), H.
  - reflexivity.
  - reflexivity.
Qed.

(** Whether a callback was passed does not change. *)
Lemma given_exec (t : Task) :
  forall w, onStateChange_given (fst (exec t w)) = onStateChange_given w.
Proof.
  induction t as [c|k IH|b k IH|k IH|v k IH|p k IH|p k IH|k IH|st k IH
                  |e k IH|o p b t k IH|c m p IHp k IH]; intros w; simpl.
  - reflexivity.
  - apply IH.
  - apply (IH (put_isProcessing b w)).
  - apply IH.
  - apply (IH (put_currentState v w)).
  - apply (IH _ (note (CallIsDetachedHead p) w)).
  - apply (IH _ (note (CallGetGitState p) w)).
  - apply IH.
  - apply (IH _ (note (Notify st) w)).
  - apply (IH (note (Telemetry e) w)).
  - reflexivity.
  - reflexivity.
Qed.

Lemma given_spawn (t : Task) (w : World) :
  onStateChange_given (spawn t w) = onStateChange_given w.
Proof.
  unfold spawn. pose proof (given_exec t w) as H.
  destruct (exec t w) as [w' [[| |e]|s]]; exact H.
Qed.

Lemma given_step (w : World) (e : Event) :
  onStateChange_given (step config w e) = onStateChange_given w.
Proof.
  destruct e as [ch|i r|i p|r|n|]; unfold step; try reflexivity.
  - destruct (live ch w); [apply given_spawn|reflexivity].
  - destruct (nth_error (pending w) i) as [s|]; [|reflexivity].
    destruct (resume s r) as [t|]; [|reflexivity].
    apply (given_spawn t (put_pending (remove_nth i (pending w)) w)).
  - destruct (nth_error (pending w) i) as [[k|q k]|]; try reflexivity.
    apply given_exec.
Qed.

Lemma given_run (es : list Event) :
  forall w, onStateChange_given (run config w es) = onStateChange_given w.
Proof.
  induction es as [|e es IH]; intros w; [reflexivity|].
  rewrite run_cons, IH. apply given_step.
Qed.

Lemma spawn_with_returns (cb : Callback) (t : Task) (w : World) :
  returns cb w -> spawn_with cb t w = spawn t w.
Proof.
  intros H. unfold spawn_with, spawn.
  rewrite (exec_with_returns t H). reflexivity.
Qed.

Lemma step_with_returns (cb : Callback) (w : World) (e : Event) :
  returns cb w -> step_with cb config w e = step config w e.
Proof.
  intros H. destruct e as [ch|i r|i p|r|n|]; unfold step_with, step;
    try reflexivity.
  - destruct (live ch w); [apply spawn_with_returns, H|reflexivity].
  - destruct (nth_error (pending w) i) as [s|]; [|reflexivity].
    destruct (resume s r) as [t|]; [|reflexivity].
    apply (@spawn_with_returns cb t
             (put_pending (remove_nth i (pending w)) w)), H.
  - destruct (nth_error (pending w) i) as [[k|q k]|]; try reflexivity.
    unfold report_with, report. rewrite (exec_with_returns _ H). reflexivity.
Qed.

Lemma run_with_returns (cb : Callback) (es : list Event) :
  forall w, returns cb w -> run_with cb config w es = run config w es.
Proof.
  induction es as [|e es IH]; intros w H; [reflexivity|].
  rewrite run_cons.
  change (run_with cb config w (e :: es))
    with (run_with cb config (step_with cb config w e) es).
  rewrite (step_with_returns e H). apply IH.
  unfold returns. rewrite given_step. exact H.
Qed.

(** C10, as the code has it.  Provided the callback, if one was passed,
    returns: after a trigger that found a change, the last-known snapshot
    is the new one, also when the reconciliation ended in error, for the
    error was caught inside the reconciliation and the handler of the
    trigger saw no exception.  A trigger that follows with the git state
    unchanged reads it, finds no change and does nothing: the failed
    reconciliation is not run again. *)
Theorem snapshot_replaced_when_the_callback_returns (cb : Callback)
    (w : World) (newState : GitStateSnapshot) (ch : Channel)
    (m1 : outcome ServerManifest) (ticks : list ScanProgress)
    (sc : outcome ScanResult) (m2 : outcome ServerManifest) :
  returns cb w ->
  Quiet w -> live ch w = true -> sees w newState -> changed w newState ->
  let w' := run_with cb config w (reconciliation ch m1 ticks sc m2) in
  currentState w' = Some newState /\
  Quiet w' /\
  (succeeded sc = false ->
   exists st, last_notified (trace w') = Some st /\ status st = error) /\
  telemetries (trace w') = telemetries (trace w) /\
  rejections (trace w') = rejections (trace w) /\
  (forall ch2, live ch2 w = true ->
     step_with cb config w' (Fire ch2) = add_trace asks w' /\
     notified (trace (step_with cb config w' (Fire ch2)))
     = notified (trace w') /\
     scans (trace (step_with cb config w' (Fire ch2))) = scans (trace w')).
Proof.
  intros Hcb Hq Hl Hs Hc w'. unfold w'.
  rewrite (run_with_returns _ Hcb).
  destruct (@snapshot_replaced_whatever_the_outcome w newState ch m1 ticks
              sc m2 Hq Hl Hs Hc) as (A & B & C & D & E & F).
  split; [exact A|]. split; [exact B|]. split; [exact C|].
  split; [exact D|]. split; [exact E|].
  intros ch2 Hl2. rewrite step_with_returns.
  - apply F, Hl2.
  - unfold returns. rewrite given_run. exact Hcb.
Qed.

(** X6. A scan that throws.  Provided the callback, if one was passed,
    returns: when [scanDirectory] rejects, on either path, the status
    becomes an error whose message ends with the text of the exception and
    whose error field is that text; the manifest is not fetched again, and
    the snapshot is replaced all the same. *)
Theorem scan_exception_ends_in_error (cb : Callback) (w : World)
    (newState : GitStateSnapshot) (ch : Channel)
    (m1 : outcome ServerManifest) (ticks : list ScanProgress)
    (e : string) (m2 : outcome ServerManifest) :
  returns cb w ->
  Quiet w -> live ch w = true -> sees w newState -> changed w newState ->
  let w' := run_with cb config w
              (reconciliation ch m1 ticks (Thrown e) m2) in
  (exists st,
      last_notified (trace w') = Some st /\
      status st = error /\
      st_error st = Some e /\
      gitBranch st = Some (branch newState) /\
      message st
      = (if takes_commit_path (currentState w) newState
         then "Failed to update index after commit: " ++ e
         else "Failed to index branch " ++ branch newState ++ ": " ++ e)%string)
  /\
  fetches (trace w') = S (fetches (trace w)) /\
  scans (trace w') = S (scans (trace w)) /\
  currentState w' = Some newState /\ Quiet w'.
Proof.
  intros Hcb Hq Hl Hs Hc w'. unfold w'.
  rewrite (run_with_returns _ Hcb).
  apply scan_exception_is_reported; assumption.
Qed.

End Properties.

(** ** The claims at work *)

Import Example.

Lemma committed_quiet : Quiet committed.
Proof. split; reflexivity. Defined.

Lemma committed_sees : sees committed (on "main" "bbb222").
Proof. split; reflexivity. Defined.

Lemma committed_changed : changed committed (on "main" "bbb222").
Proof.
  intros known E. injection E as <-. right. discriminate.
Defined.

Lemma switched_quiet : Quiet switched.
Proof. split; reflexivity. Defined.

Lemma switched_sees : sees switched (on "feature-x" "bbb222").
Proof. split; reflexivity. Defined.


(** Two triggers during a reconciliation, one before the manifest came
    back and one during the scan: one scan. *)
Lemma single_flight_witness :
  step config (run config committed [Fire Poll]) (Fire Head)
  = run config committed [Fire Poll] /\
  scans (trace (run config committed
                  [Fire Poll; Fire Head;
                   Settle 0 (Manifest (Returned served)); Fire Poll])) = 1.
Proof.
  split.
  - apply (proj1 (single_flight config)). reflexivity.
  - destruct (proj2 (single_flight config) committed (on "main" "bbb222")
                Poll Head (Returned served) [Fire Head] [Fire Poll]
                committed_quiet eq_refl committed_sees committed_changed
                eq_refl eq_refl) as (_ & _ & _ & H & _).
    exact H.
Defined.

(** A watcher suspended on the manifest of a reconciliation: its promises
    settle, the flag is clear and the next poll is handled. *)
Lemma flag_cleared_on_every_exit_witness :
  let w := settle_all config 3 (fun _ => Thrown "503") (Returned failed)
             (run config created
                [RepositoryBecomes (repo (on "main" "bbb222")); Fire Poll]) in
  Quiet w /\
  git_reads (trace (step config w (Fire Poll))) > git_reads (trace w).
Proof.
  intros w.
  destruct (flag_cleared_on_every_exit config true host
              (repo (on "main" "aaa111")) 5
              [RepositoryBecomes (repo (on "main" "bbb222")); Fire Poll])
    as (_ & _ & _ & H).
  destruct (H (fun _ => Thrown "503") (Returned failed)) as [Hq Hn].
  split; [exact Hq|]. apply Hn. reflexivity.
Defined.

(** A switch from main to feature-x with a new commit: the branch-change
    reconciliation. *)
Lemma branch_switch_takes_priority_witness :
  trace (run config switched
           (reconciliation Head (Returned served) [tick] (Returned indexed)
              (Returned served)))
  = trace switched ++ asks config ++
    branch_trace config "feature-x" (Returned served) [tick]
      (Returned indexed) (Returned served) 5.
Proof.
  apply (proj1 (@branch_switch_takes_priority config switched
                  (on "main" "aaa111") (on "feature-x" "bbb222") Head
                  (Returned served) [tick] (Returned indexed)
                  (Returned served)
                  switched_quiet eq_refl switched_sees eq_refl)).
  discriminate.
Defined.

(** A commit on main whose scan fails with two errors. *)
Lemma scan_failure_is_reported_witness :
  exists st,
    last_notified
      (trace (run config committed
                (reconciliation Poll (Returned served) [tick]
                   (Returned failed) (Returned served)))) = Some st /\
    status st = error /\ message st <> "" /\
    st_error st = Some "Scan failed with 2 errors" /\
    gitBranch st = Some "main".
Proof.
  exact (proj1 (@scan_failure_is_reported config committed
                  (on "main" "bbb222") Poll (Returned served) [tick] failed
                  (Returned served)
                  committed_quiet eq_refl committed_sees committed_changed
                  eq_refl)).
Defined.


(** A checkout of a raw commit. *)
Lemma detached_head_suspends_witness :
  let w := run config created [RepositoryBecomes detached; Fire Head] in
  currentState w = None /\
  last_notified (trace w) = Some (detached_notice) /\
  scans (trace w) = 0.
Proof.
  destruct (@detached_head_suspends config
              (run config created [RepositoryBecomes detached]) Head
              eq_refl eq_refl eq_refl)
    as (A & _ & _ & _ & B & _ & _ & C & _).
  split; [exact B|]. split; [exact A|exact C].
Defined.

(** A poll that finds main at aaa111, as before. *)
Lemma no_change_no_effect_witness :
  notified (trace (step config created (Fire Poll)))
  = notified (trace created) /\
  scans (trace (step config created (Fire Poll))) = 0.
Proof.
  destruct (@no_change_no_effect config created (on "main" "aaa111")
              (on "main" "aaa111") Poll eq_refl
              (conj eq_refl eq_refl) eq_refl eq_refl)
    as (_ & _ & _ & A & _ & _ & B).
  split; [exact A|exact B].
Defined.

(** C6, as stated, fails for a pair of detached snapshots: while HEAD
    stays detached nothing changes between two polls, and each of them
    passes the idle status to the callback. *)
Lemma detached_head_is_announced_on_every_trigger :
  let w := run config created [RepositoryBecomes detached; Fire Poll] in
  let w' := step config w (Fire Poll) in
  Quiet w /\
  currentState w = None /\
  last_notified (trace w) = Some detached_notice /\
  repository w' = repository w /\
  currentState w' = currentState w /\
  delivered w' = delivered w ++ [detached_notice].
Proof. repeat split. Qed.

(** A commit on main whose scan fails, with a callback that returns: the
    snapshot moves to bbb222 all the same, and the next poll does
    nothing. *)
Lemma snapshot_replaced_when_the_callback_returns_witness :
  let w := run_with Sample.easy config committed
             (reconciliation Poll (Returned served) [tick] (Returned failed)
                (Returned served)) in
  currentState w = Some (on "main" "bbb222") /\
  scans (trace (step_with Sample.easy config w (Fire Poll)))
  = scans (trace w).
Proof.
  destruct (@snapshot_replaced_when_the_callback_returns config Sample.easy
              committed (on "main" "bbb222") Poll (Returned served) [tick]
              (Returned failed) (Returned served)
              (fun _ _ => eq_refl)
              committed_quiet eq_refl committed_sees committed_changed)
    as (A & _ & _ & _ & _ & B).
  split; [exact A|]. apply (B Poll eq_refl).
Defined.

(** C10, as stated, fails: the same commit with a callback that throws
    on the error status.  The exception leaves [handleCommit], the
    snapshot stays at aaa111, and the next poll, with the repository as it
    was, runs the reconciliation again. *)
Lemma throwing_callback_keeps_the_old_snapshot :
  let failing := reconciliation Poll (Returned served) [tick]
                   (Returned failed) (Returned served) in
  let w := run_with Sample.fussy config committed failing in
  let again := run_with Sample.fussy config w failing in
  Quiet committed /\ live Poll committed = true /\
  sees committed (on "main" "bbb222") /\
  currentState committed = Some (on "main" "aaa111") /\
  currentState w = Some (on "main" "aaa111") /\
  Quiet w /\
  (exists st, last_notified (trace w) = Some st /\ status st = error) /\
  telemetries (trace w) = S (telemetries (trace committed)) /\
  repository w = repository committed /\
  scans (trace w) = 1 /\
  scans (trace again) = 2 /\
  notified (trace (step_with Sample.fussy config w (Fire Poll)))
  <> notified (trace w).
Proof.
  vm_compute. repeat split; try discriminate.
  eexists. split; reflexivity.
Qed.

(** A switch to feature-x at bbb222 against a commit bbb222 on
    feature-x. *)
Lemma commit_path_mirrors_branch_path_witness :
  exists first rest same,
    trace (run config switched
             (reconciliation Poll (Returned served) [tick]
                (Returned indexed) (Returned served)))
    = trace switched ++ first ++ announcement "feature-x" :: rest /\
    length first = 4 /\
    trace (run config committed_on_feature
             (reconciliation Poll (Returned served) [tick]
                (Returned indexed) (Returned served)))
    = trace committed_on_feature ++ same /\
    map erase same = map erase (first ++ rest).
Proof.
  apply (@commit_path_mirrors_branch_path config switched
           committed_on_feature (on "feature-x" "aaa111")
           (on "feature-x" "bbb222") Poll (Returned served) [tick]
           (Returned indexed) (Returned served)).
  - exact switched_quiet.
  - reflexivity.
  - exact switched_sees.
  - intros k E. injection E as <-. discriminate.
  - split; reflexivity.
  - reflexivity.
  - split; reflexivity.
  - reflexivity.
  - reflexivity.
  - discriminate.
  - reflexivity.
Defined.

(** C7, as stated, fails: a reconciliation in flight when the watcher is
    disposed still passes its progress and its result to the callback. *)
Lemma callback_invoked_after_disposal :
  let at_disposal := run config committed [Fire Poll; Dispose] in
  let finished :=
    run config at_disposal
      [Settle 0 (Manifest (Returned served)); Progress 0 tick;
       Settle 0 (Scan (Returned indexed));
       Settle 0 (Manifest (Returned served))] in
  disposables at_disposal = [] /\
  length (pending at_disposal) = 1 /\
  delivered finished
  = delivered at_disposal ++
    [commit_progress "main" tick;
     state_watching "Index updated after commit" "main" 5 indexed
       (Some served)].
Proof. repeat split. Qed.

(** C8, as stated, fails: with the same answers, the statuses of the two
    reconciliations differ by more than their messages. *)
Lemma paths_differ_beyond_messages :
  map erase
    (trace (run config switched
              (reconciliation Poll (Returned served) [tick]
                 (Returned indexed) (Returned served))))
  <> map erase
       (trace (run config committed_on_feature
                 (reconciliation Poll (Returned served) [tick]
                    (Returned indexed) (Returned served)))).
Proof. vm_compute. discriminate. Qed.


(** ** The rollback script: properties *)

Section RollbackProperties.

Import Rollback.

Variable Json : Type.
Variable P : Platform Json.

(** Runs the script on the outcomes at hand, one call after the other. *)
Ltac script :=
  unfold createRollbackPR, attempt_rollback, getContent, createRef,
    createOrUpdateFileContents, pulls_create_, asking, attempt, finish,
    version_of, with_version;
  repeat match goal with
         | |- context [if is_null P ?x then _ else _] =>
             destruct (is_null P x) eqn:?; simpl
         | |- context [match ?o with Returned _ => _ | Thrown _ => _ end] =>
             destruct o eqn:?; simpl
         end.

Lemma js_split_nonempty (sep : ascii) (s : string) : js_split sep s <> [].
Proof.
  destruct s as [|c s]; simpl; [discriminate|].
  destruct (Ascii.eqb c sep); [discriminate|].
  destruct (js_split sep s); discriminate.
Qed.

(** Splitting at a separator a text that has one after a first piece free
    of it. *)
Lemma js_split_first (sep : ascii) (piece rest : string) :
  free_of sep piece = true ->
  js_split sep (piece ++ String sep rest) = piece :: js_split sep rest.
Proof.
  induction piece as [|c piece IH]; simpl; intros H.
  - rewrite Ascii.eqb_refl. reflexivity.
  - apply andb_prop in H. destruct H as [Hc Hp].
    apply negb_true_iff in Hc. rewrite Hc, (IH Hp). reflexivity.
Qed.

Lemma js_split_last (sep : ascii) (piece : string) :
  free_of sep piece = true -> js_split sep piece = [piece].
Proof.
  induction piece as [|c piece IH]; simpl; intros H; [reflexivity|].
  apply andb_prop in H. destruct H as [Hc Hp].
  apply negb_true_iff in Hc. rewrite Hc, (IH Hp). reflexivity.
Qed.

(** X11. An incomplete environment.  The script calls the GitHub API
    exactly when the four variables are all set and non-empty; when one is
    unset or empty it exits with code 1 having called and printed
    nothing. *)
Theorem incomplete_environment_stops_the_script (env : Env) :
  (missing (GITHUB_TOKEN env) || missing (GITHUB_REPOSITORY env)
   || missing (SOURCE_TAG env) || missing (GITHUB_SHA env) = true
   <-> requests (createRollbackPR P env) = []) /\
  (requests (createRollbackPR P env) = [] ->
   stdout (createRollbackPR P env) = [] /\
   exit_code (createRollbackPR P env) = Some 1).
Proof.
  unfold createRollbackPR.
  destruct (missing (GITHUB_TOKEN env) || missing (GITHUB_REPOSITORY env)
            || missing (SOURCE_TAG env) || missing (GITHUB_SHA env)).
  - simpl. repeat split; auto.
  - split; [split; [discriminate|]|]; script; discriminate.
Qed.

(** X12. Output on success only.  The script makes at most six calls.
    It either returns, after all six, the last of them the creation of
    the pull request, having printed on standard output the number and
    the address of the pull request that GitHub answered to that call, or
    exits with code 1 having printed nothing there. *)
Theorem output_on_success_only (env : Env) :
  let r := createRollbackPR P env in
  length (requests r) <= 6 /\
  ((exit_code r = None /\ length (requests r) = 6 /\
    exists title head body pr,
      nth_error (requests r) 5
      = Some (PullsCreate (owner_of env) (repo_of env) title head "main"
                body) /\
      pulls_create (new_Octokit P (value (GITHUB_TOKEN env)))
        (owner_of env) (repo_of env) title head "main" body
      = Returned pr /\
      stdout r = [("pr_number=" ++ show (number pr))%string;
                  ("pr_url=" ++ html_url pr)%string]) \/
   (exit_code r = Some 1 /\ stdout r = [])).
Proof.
  unfold createRollbackPR, owner_of, repo_of.
  destruct (missing (GITHUB_TOKEN env) || missing (GITHUB_REPOSITORY env)
            || missing (SOURCE_TAG env) || missing (GITHUB_SHA env)).
  - simpl. split; [lia|]. right. auto.
  - script; (split; [lia|]); try (right; split; reflexivity).
    left. split; [reflexivity|]. split; [reflexivity|].
    do 4 eexists. split; [reflexivity|]. split; [eassumption|reflexivity].
Qed.

(** X13. Nothing is written before the version is known.  If the script
    makes any call that changes the repository, then it could read
    package.json on main, parse it to a value that is not null, and
    compute the rollback version from its version. *)
Theorem nothing_written_before_the_version_is_known (env : Env) :
  existsb is_write (requests (createRollbackPR P env)) = true ->
  exists file json v,
    repos_getContent (new_Octokit P (value (GITHUB_TOKEN env)))
      (owner_of env) (repo_of env) "src/package.json" "main"
    = Returned file /\
    JSON_parse P (base64_decode P (content file)) = Returned json /\
    is_null P json = false /\
    calculateRollbackVersion P (get_version P json) = Returned v.
Proof.
  unfold createRollbackPR, owner_of, repo_of.
  destruct (missing (GITHUB_TOKEN env) || missing (GITHUB_REPOSITORY env)
            || missing (SOURCE_TAG env) || missing (GITHUB_SHA env));
    [discriminate|].
  script; intros H; try discriminate H;
    do 3 eexists; (split; [reflexivity|]); (split; [eassumption|]);
    split; eassumption.
Qed.

(** X17. A package.json that holds null.  With a complete environment,
    when package.json on main parses to null, reading its version throws:
    the script exits with code 1 after that one read, having written and
    printed nothing. *)
Theorem null_package_stops_the_script (env : Env) (file : File)
    (json : Json) :
  missing (GITHUB_TOKEN env) || missing (GITHUB_REPOSITORY env)
  || missing (SOURCE_TAG env) || missing (GITHUB_SHA env) = false ->
  repos_getContent (new_Octokit P (value (GITHUB_TOKEN env)))
    (owner_of env) (repo_of env) "src/package.json" "main"
  = Returned file ->
  JSON_parse P (base64_decode P (content file)) = Returned json ->
  is_null P json = true ->
  let r := createRollbackPR P env in
  requests r
  = [GetContent (owner_of env) (repo_of env) "src/package.json" "main"] /\
  stdout r = [] /\ exit_code r = Some 1.
Proof.
  unfold createRollbackPR, owner_of, repo_of. intros Hm Hf Hj Hn.
  rewrite Hm.
  unfold attempt_rollback, getContent, asking, attempt, version_of.
  rewrite Hf, Hj, Hn. repeat split.
Qed.

(** X14. Where the calls go.  With the rollback version computed from
    main's package.json, every call of the script is aimed as follows:
    reads at main, the new ref at GITHUB_SHA under the name of the
    version, both file updates at that branch, and the pull request from
    that branch to main; all in the repository named by
    GITHUB_REPOSITORY. *)
Theorem every_call_is_aimed (env : Env) (file : File) (json : Json)
    (v : string) :
  repos_getContent (new_Octokit P (value (GITHUB_TOKEN env)))
    (owner_of env) (repo_of env) "src/package.json" "main"
  = Returned file ->
  JSON_parse P (base64_decode P (content file)) = Returned json ->
  calculateRollbackVersion P (get_version P json) = Returned v ->
  Forall (aimed (owner_of env) (repo_of env) v (value (GITHUB_SHA env)))
    (requests (createRollbackPR P env)).
Proof.
  unfold createRollbackPR, owner_of, repo_of. intros Hf Hj Hv.
  destruct (missing (GITHUB_TOKEN env) || missing (GITHUB_REPOSITORY env)
            || missing (SOURCE_TAG env) || missing (GITHUB_SHA env));
    [constructor|].
  unfold attempt_rollback, getContent, createRef,
    createOrUpdateFileContents, pulls_create_, asking, attempt, finish.
  rewrite Hf, Hj. unfold version_of, with_version.
  destruct (is_null P json);
    [repeat (constructor; [simpl; auto|]); constructor|].
  rewrite Hv.
  repeat match goal with
         | |- context [match ?o with Returned _ => _ | Thrown _ => _ end] =>
             destruct o eqn:?; simpl
         end;
    repeat (constructor; [simpl; auto|]); constructor.
Qed.

(** X15. What is written.  Provided base64 decodes what it encodes: the
    package.json the script writes is main's with the version replaced
    and a newline at the end, the changelog it writes is the rollback
    entry followed by main's changelog unchanged, and each is written
    against the blob of main it was made from. *)
Theorem files_are_rewritten_from_main (env : Env) (q : Request) :
  (forall t, base64_decode P (base64_encode P t) = t) ->
  In q (requests (createRollbackPR P env)) ->
  match q with
  | CreateOrUpdateFileContents o r path _ c _ s =>
      exists file json v,
        repos_getContent (new_Octokit P (value (GITHUB_TOKEN env)))
          (owner_of env) (repo_of env) "src/package.json" "main"
        = Returned file /\
        JSON_parse P (base64_decode P (content file)) = Returned json /\
        calculateRollbackVersion P (get_version P json) = Returned v /\
        ((path = "src/package.json" /\ s = sha file /\
          base64_decode P c
          = (JSON_stringify P (set_version P json v) ++ nl)%string) \/
         (exists old,
            repos_getContent (new_Octokit P (value (GITHUB_TOKEN env)))
              (owner_of env) (repo_of env) "CHANGELOG.md" "main"
            = Returned old /\
            path = "CHANGELOG.md" /\ s = sha old /\
            base64_decode P c
            = (rollbackEntry v (date_of (toISOString P))
                 (value (SOURCE_TAG env)) ++
               base64_decode P (content old))%string))
  | _ => True
  end.
Proof.
  intros Hb. unfold createRollbackPR, owner_of, repo_of, date_of.
  destruct (missing (GITHUB_TOKEN env) || missing (GITHUB_REPOSITORY env)
            || missing (SOURCE_TAG env) || missing (GITHUB_SHA env));
    [intros []|].
  script; intros Hq; simpl in Hq;
    repeat match type of Hq with
           | _ \/ _ => destruct Hq as [Hq|Hq]
           | False => destruct Hq
           end;
    subst q; try exact I;
    do 3 eexists; (split; [reflexivity|]); (split; [eassumption|]);
    (split; [eassumption|]);
    first [ left; split; [reflexivity|]; split; [reflexivity|];
            rewrite Hb; reflexivity
          | right; eexists; split; [first [reflexivity|eassumption]|];
            split; [reflexivity|]; split; [reflexivity|];
            rewrite Hb; reflexivity ].
Qed.

(** X16. The repository name.  With a complete environment whose
    GITHUB_REPOSITORY is an owner, a slash and a name, neither containing
    a slash, the calls address that owner and that name; what follows a
    second slash is dropped.  Without any slash the name is undefined. *)
Theorem repository_is_split_at_the_slash (env : Env) (o n rest : string) :
  missing (GITHUB_TOKEN env) = false -> missing (SOURCE_TAG env) = false ->
  missing (GITHUB_SHA env) = false ->
  free_of "/" o = true -> free_of "/" n = true ->
  (GITHUB_REPOSITORY env = Some (o ++ "/" ++ n)%string \/
   GITHUB_REPOSITORY env = Some (o ++ "/" ++ n ++ "/" ++ rest)%string ->
   hd_error (requests (createRollbackPR P env))
   = Some (GetContent o (Some n) "src/package.json" "main")) /\
  (o <> EmptyString -> GITHUB_REPOSITORY env = Some o ->
   hd_error (requests (createRollbackPR P env))
   = Some (GetContent o None "src/package.json" "main")).
Proof.
  intros Ht Hs Hc Ho Hn.
  assert (Hm : forall t, t <> EmptyString -> missing (Some t) = false)
    by (intros [|c t] A; [destruct (A eq_refl)|reflexivity]).
  assert (Hne : forall t, (o ++ String "/" t)%string <> EmptyString)
    by (intros t; destruct o; discriminate).
  split.
  - intros Hr.
    assert (Hp : hd EmptyString (js_split "/" (value (GITHUB_REPOSITORY env)))
                 = o /\
                 nth_error (js_split "/" (value (GITHUB_REPOSITORY env))) 1
                 = Some n /\
                 missing (GITHUB_REPOSITORY env) = false).
    { destruct Hr as [-> | ->]; simpl value.
      - change (o ++ "/" ++ n)%string with (o ++ String "/" n)%string.
        rewrite (@js_split_first "/"%char o n Ho),
          (@js_split_last "/"%char n Hn).
        repeat split. apply Hm, Hne.
      - change (o ++ "/" ++ n ++ "/" ++ rest)%string
          with (o ++ String "/" (n ++ String "/" rest))%string.
        rewrite (@js_split_first "/"%char o _ Ho),
          (@js_split_first "/"%char n rest Hn).
        repeat split. apply Hm, Hne. }
    destruct Hp as (Hp1 & Hp2 & Hp3).
    unfold createRollbackPR. rewrite Ht, Hs, Hc, Hp3, Hp1, Hp2. simpl.
    script; reflexivity.
  - intros Hne' Hr.
    unfold createRollbackPR. rewrite Ht, Hs, Hc, Hr, (Hm o Hne'). simpl.
    rewrite (@js_split_last "/"%char o Ho). simpl.
    script; reflexivity.
Qed.

End RollbackProperties.

(** ** The further properties at work *)

(** A host on which no file watcher can be created: polling only. *)
Lemma polling_is_always_set_up_witness :
  live Poll (createGitWatcher config true Sample.deaf
               (repo (on "main" "aaa111")) 5) = true /\
  live Head (createGitWatcher config true Sample.deaf
               (repo (on "main" "aaa111")) 5) <> true.
Proof.
  destruct (@polling_is_always_set_up config true Sample.deaf
              (repo (on "main" "aaa111")) 5)
    as (A & _ & _ & _ & _ & _ & B).
  split; [exact A|].
  intros H. destruct (B "ENOSPC" eq_refl) as [_ C].
  discriminate (C Head H).
Defined.

(** Three triggers on a repository that stays on main at aaa111. *)
Lemma unchanged_repository_is_never_indexed_witness :
  let w := run config created [Fire Poll; Fire Head; Fire Poll] in
  currentState w = Some (on "main" "aaa111") /\ scans (trace w) = 0.
Proof.
  destruct (@unchanged_repository_is_never_indexed config true host
              (repo (on "main" "aaa111")) 5 (on "main" "aaa111")
              [Fire Poll; Fire Head; Fire Poll] eq_refl eq_refl eq_refl)
    as (A & _ & _ & _ & B).
  split; [exact A|exact B].
Defined.

(** A watcher created in detached HEAD state, then a checkout of main. *)
Lemma first_branch_is_established_witness :
  notified (trace (createGitWatcher config true host detached 5))
  = [detached_notice] /\
  currentState (createGitWatcher config true host detached 5) = None.
Proof.
  destruct (@first_branch_is_established config true host detached
              (repo (on "main" "aaa111")) 5 (on "main" "aaa111") Poll
              (Returned served) [tick] (Returned indexed) (Returned served))
    as (A & B & _).
  - intros s E. discriminate E.
  - reflexivity.
  - reflexivity.
  - reflexivity.
  - split; [exact B|exact A].
Defined.

(** A poll on a repository whose metadata cannot be read. *)
Lemma git_failure_is_captured_witness :
  let w := run config created [RepositoryBecomes Sample.broken] in
  currentState (step config w (Fire Poll)) = Some (on "main" "aaa111") /\
  In (Telemetry "ENOENT") (trace (step config w (Fire Poll))).
Proof.
  destruct (@git_failure_is_captured config
              (run config created [RepositoryBecomes Sample.broken]) Poll
              "ENOENT" eq_refl eq_refl (or_introl eq_refl))
    as (A & _ & _ & _ & _ & _ & B & _).
  split; [exact A|exact B].
Defined.

(** A poll on a repository without a readable state. *)
Lemma unreadable_state_is_ignored_witness :
  let w := run config created [RepositoryBecomes Sample.unreadable] in
  currentState (step config w (Fire Poll)) = Some (on "main" "aaa111") /\
  notified (trace (step config w (Fire Poll))) = [].
Proof.
  destruct (@unreadable_state_is_ignored config
              (run config created [RepositoryBecomes Sample.unreadable]) Poll
              eq_refl eq_refl eq_refl eq_refl)
    as (A & _ & _ & B & _).
  split; [exact A|exact B].
Defined.

(** A commit on main whose scan runs out of file handles. *)
Lemma scan_exception_ends_in_error_witness :
  exists st,
    last_notified
      (trace (run_with Sample.easy config committed
                (reconciliation Poll (Returned served) [tick]
                   (Thrown "EMFILE") (Returned served)))) = Some st /\
    message st = "Failed to update index after commit: EMFILE" /\
    st_error st = Some "EMFILE".
Proof.
  destruct (@scan_exception_ends_in_error config Sample.easy committed
              (on "main" "bbb222") Poll (Returned served) [tick] "EMFILE"
              (Returned served) (fun _ _ => eq_refl)
              committed_quiet eq_refl committed_sees committed_changed)
    as ((st & A & _ & B & _ & C) & _).
  exists st. split; [exact A|]. split; [exact C|exact B].
Defined.





(** A commit seen at time 5 and indexed by time 99. *)
Lemma last_sync_time_is_completion_time_witness :
  exists st,
    last_notified
      (trace (run config committed
                (reconciliation_amid Poll (repo (on "main" "bbb222"))
                   (Returned served) [tick] (Returned indexed) 99
                   (Returned served)))) = Some st /\
    status st = watching /\ lastSyncTime st = Some 99.
Proof.
  exact (@last_sync_time_is_completion_time config committed
           (on "main" "bbb222") Poll (repo (on "main" "bbb222"))
           (Returned served) [tick] indexed 99 (Returned served)
           committed_quiet eq_refl committed_sees committed_changed eq_refl).
Defined.

(** An environment whose token is empty. *)
Lemma incomplete_environment_stops_the_script_witness :
  Rollback.exit_code
    (Rollback.createRollbackPR Sample.platform
       {| Rollback.GITHUB_TOKEN := Some "";
          Rollback.GITHUB_REPOSITORY := Some "Kilo-Org/kilocode";
          Rollback.SOURCE_TAG := Some "v4.99.0";
          Rollback.GITHUB_SHA := None |}) = Some 1.
Proof.
  apply (proj2 (@incomplete_environment_stops_the_script string
                  Sample.platform _)).
  reflexivity.
Defined.

(** A run in which every call succeeds: what it prints is what GitHub
    answered. *)
Lemma output_on_success_only_witness :
  Rollback.stdout (Rollback.createRollbackPR Sample.platform Sample.env)
  = ["pr_number=7"; "pr_url=https://github.com/o/r/pull/7"].
Proof.
  destruct (@output_on_success_only string Sample.platform Sample.env)
    as [_ [(_ & _ & title & head & body & pr & _ & A & B)|(A & _)]].
  - simpl in A. injection A as <-. exact B.
  - discriminate A.
Defined.

Lemma nothing_written_before_the_version_is_known_witness :
  exists file json v,
    Rollback.repos_getContent Sample.github "Kilo-Org" (Some "kilocode")
      "src/package.json" "main" = Returned file /\
    Rollback.JSON_parse Sample.platform
      (Rollback.base64_decode Sample.platform (Rollback.content file))
    = Returned json /\
    Rollback.is_null Sample.platform json = false /\
    Rollback.calculateRollbackVersion Sample.platform
      (Rollback.get_version Sample.platform json) = Returned v.
Proof.
  exact (@nothing_written_before_the_version_is_known string
           Sample.platform Sample.env eq_refl).
Defined.

(** The same run where package.json holds null: one read, and no more. *)
Lemma null_package_stops_the_script_witness :
  Rollback.requests (Rollback.createRollbackPR Sample.hollow Sample.env)
  = [Rollback.GetContent "Kilo-Org" (Some "kilocode") "src/package.json"
       "main"] /\
  Rollback.exit_code (Rollback.createRollbackPR Sample.hollow Sample.env)
  = Some 1.
Proof.
  destruct (@null_package_stops_the_script string Sample.hollow Sample.env
              {| Rollback.content := "src/package.json";
                 Rollback.sha := "abc" |}
              "src/package.json" eq_refl eq_refl eq_refl eq_refl)
    as (A & _ & B).
  split; [exact A|exact B].
Defined.

Lemma every_call_is_aimed_witness :
  Forall (Rollback.aimed "Kilo-Org" (Some "kilocode") "4.100.1" "0123abc")
    (Rollback.requests
       (Rollback.createRollbackPR Sample.platform Sample.env)).
Proof.
  exact (@every_call_is_aimed string Sample.platform Sample.env
           {| Rollback.content := "src/package.json"; Rollback.sha := "abc" |}
           "src/package.json" "4.100.1" eq_refl eq_refl eq_refl).
Defined.

(** The changelog written in that run. *)
Lemma files_are_rewritten_from_main_witness :
  exists old,
    Rollback.repos_getContent Sample.github "Kilo-Org" (Some "kilocode")
      "CHANGELOG.md" "main" = Returned old /\
    Rollback.sha old = "abc".
Proof.
  destruct (@files_are_rewritten_from_main string Sample.platform Sample.env
              (Rollback.CreateOrUpdateFileContents "Kilo-Org"
                 (Some "kilocode") "CHANGELOG.md"
                 "docs: add rollback entry to changelog"
                 (Rollback.rollbackEntry "4.100.1" "2026-01-02" "v4.99.0"
                  ++ "CHANGELOG.md")%string
                 "rollback-to-4.100.1" "abc")
              (fun t => eq_refl)
              ltac:(simpl; auto 10))
    as (file & json & v & _ & _ & _ & [(A & _)|(old & A & _ & B & _)]).
  - discriminate A.
  - exists old. split; [exact A|]. symmetry. exact B.
Defined.

Lemma repository_is_split_at_the_slash_witness :
  hd_error (Rollback.requests
              (Rollback.createRollbackPR Sample.platform Sample.env))
  = Some (Rollback.GetContent "Kilo-Org" (Some "kilocode")
            "src/package.json" "main").
Proof.
  apply (proj1 (@repository_is_split_at_the_slash string Sample.platform
                  Sample.env "Kilo-Org" "kilocode" ""
                  eq_refl eq_refl eq_refl eq_refl eq_refl)).
  left. reflexivity.
Defined.
